(** * Student organisations: universities, clubs, people, memberships

    A shallow embedding of the two front-ends of the repository,
    [src/student_orgs/app.py] (the web handlers) and
    [src/student_orgs/main.py] (the terminal menu), over a model of the
    document store both of them talk to.

    - [Py]         the few Python string operations the code relies on;
    - [Firestore]  documents, paths, snapshots, queries and commits;
    - [Runtime]    the world a program runs in, exceptions, sequencing;
    - [Client]     the calls of the store client, as the programs make them;
    - [App]        the handlers of [app.py];
    - [Main]       the menu actions of [main.py];
    - [Spec]       the vocabulary of the statements and a small sample store.

    Strings are sequences of code points below 256.  Timestamps are
    integers read from a clock carried by the world.  A handler returns
    its response (the template and context, or the redirect, and the
    flashed message); a menu action returns what it reports.  What
    [print] writes is not modelled otherwise.

    The store is modelled after its documented behaviour: a query without
    [order_by] returns documents by ascending id; [order_by(f)] returns
    the documents that have field [f], by ascending value of [f]; [update]
    merges fields into an existing document; a commit applies all of its
    writes or none.  Limits of the store on the size of a commit and
    failures of the network are outside the model. *)

From stdpp Require Import gmap strings list sorting.
From Stdlib Require Import ZArith Ascii.

(** ** Python strings *)

Module Py.

(** [str.isspace] on a single code point below 256. *)
Definition is_space (a : ascii) : bool :=
  let n := nat_of_ascii a in
  (((9 <=? n) && (n <=? 13)) || ((28 <=? n) && (n <=? 32))
   || (n =? 133) || (n =? 160))%nat.

Fixpoint lstrip (s : string) : string :=
  match s with
  | String a r => if is_space a then lstrip r else s
  | EmptyString => EmptyString
  end.

Fixpoint rstrip (s : string) : string :=
  match s with
  | String a r =>
      match rstrip r with
      | EmptyString => if is_space a then EmptyString else String a EmptyString
      | r' => String a r'
      end
  | EmptyString => EmptyString
  end.

(** [s.strip()] *)
Definition strip (s : string) : string := rstrip (lstrip s).

(** Truth value of a string: [bool(s)]. *)
Definition truthy (s : string) : bool :=
  match s with EmptyString => false | _ => true end.

(** [s or None] *)
Definition or_None (s : string) : option string :=
  if truthy s then Some s else None.

(** [s or d] for a string default [d]. *)
Definition or_str (s d : string) : string :=
  if truthy s then s else d.

(** [int(s)] on a stripped string: an optional sign, then decimal digits
    with single underscores allowed between digits. *)
Definition digit (a : ascii) : option Z :=
  let n := nat_of_ascii a in
  if ((48 <=? n) && (n <=? 57))%nat then Some (Z.of_nat (n - 48)) else None.

Fixpoint digits (acc : Z) (after_digit : bool) (s : string) : option Z :=
  match s with
  | EmptyString => if after_digit then Some acc else None
  | String a r =>
      match digit a with
      | Some d => digits (10 * acc + d) true r
      | None =>
          if Ascii.eqb a "_"%char && after_digit
          then match r with
               | EmptyString => None
               | String b _ => if digit b is Some _ then digits acc false r else None
               end
          else None
      end
  end.

Definition int (s : string) : option Z :=
  match s with
  | String "-"%char r => Z.opp <$> digits 0 false r
  | String "+"%char r => digits 0 false r
  | _ => digits 0 false s
  end.

(** [s.split(sep)] for a separator of one character. *)
Fixpoint split (sep : ascii) (s : string) : list string :=
  match s with
  | EmptyString => [EmptyString]
  | String a r =>
      if Ascii.eqb a sep then EmptyString :: split sep r
      else match split sep r with
           | seg :: segs => String a seg :: segs
           | [] => [String a EmptyString]
           end
  end.

(** [items[i]] with Python's negative indices; [None] stands for
    [IndexError]. *)
Definition index {A} (items : list A) (i : Z) : option A :=
  let n := Z.of_nat (length items) in
  if (0 <=? i)%Z then items !! Z.to_nat i
  else if (0 <=? i + n)%Z then items !! Z.to_nat (i + n)
  else None.

End Py.

(** ** The document store *)

Module Firestore.

(** Field values the two programs ever store: [None], a string, a
    timestamp. *)
Inductive value :=
| VNone
| VStr (s : string)
| VTime (t : Z).

#[global] Instance value_eq_dec : EqDecision value.
Proof. solve_decision. Defined.

(** A document's fields ([to_dict()]) and a document path such as
    [clubs/{id}/memberships/{id}], kept as its segments. *)
Abbreviation dict := (gmap string value).
Abbreviation path := (list string).

(** [d.get(k)]: a missing key reads as [None]. *)
Definition dict_get (d : dict) (k : string) : value :=
  default VNone (d !! k).

(** [d.get(k, dflt)] *)
Definition dict_get_default (d : dict) (k : string) (dflt : value) : value :=
  default dflt (d !! k).

Definition of_option (o : option string) : value :=
  match o with Some s => VStr s | None => VNone end.

(** One write of a commit. *)
Inductive write :=
| WSet (p : path) (d : dict)
| WUpdate (p : path) (d : dict)
| WDelete (p : path).

(** The store: its documents and the commits it has received, oldest
    first.  A commit is the list of writes it applies at once. *)
Record store := Store {
  docs : gmap path dict;
  commits : list (list write)
}.

(** *** Paths and collections *)

(** The collection a document path lies in, and its id there. *)
Definition split_path (p : path) : option (path * string) :=
  match reverse p with
  | id :: rc => Some (reverse rc, id)
  | [] => None
  end.

Definition in_collection (coll : path) (e : path * dict)
  : option (string * dict) :=
  match split_path e.1 with
  | Some (c, id) => if decide (c = coll) then Some (id, e.2) else None
  | None => None
  end.

(** The documents directly inside collection [coll], as (id, fields). *)
Definition children (coll : path) (ds : gmap path dict)
  : list (string * dict) :=
  omap (in_collection coll) (map_to_list ds).

(** *** Ordering of query results *)

(** The store's order on field values: null, then timestamps, then
    strings; strings by code points. *)
Definition value_leb (v1 v2 : value) : bool :=
  match v1, v2 with
  | VNone, _ => true
  | VTime t1, VTime t2 => (t1 <=? t2)%Z
  | VTime _, VStr _ => true
  | VStr s1, VStr s2 => String.leb s1 s2
  | _, _ => false
  end.

Definition value_le (v1 v2 : value) : Prop := value_leb v1 v2 = true.

(** A query without [order_by] returns documents by ascending id. *)
Definition id_le (a b : string * dict) : Prop := String.le a.1 b.1.

(** [order_by(field)] sorts by the field's value, ties by id. *)
Definition field_leb (field : string) (a b : string * dict) : bool :=
  let va := dict_get a.2 field in
  let vb := dict_get b.2 field in
  value_leb va vb && (negb (value_leb vb va) || String.leb a.1 b.1).

Definition field_le (field : string) (a b : string * dict) : Prop :=
  field_leb field a b = true.

#[global] Instance id_le_dec : RelDecision id_le.
Proof. intros a b. unfold id_le. apply _. Defined.

#[global] Instance field_le_dec field : RelDecision (field_le field).
Proof. intros a b. unfold field_le. apply _. Defined.

Definition has_field (field : string) (e : string * dict) : bool :=
  bool_decide (is_Some (e.2 !! field)).

(** [collection.stream()] *)
Definition query_all (coll : path) (ds : gmap path dict)
  : list (string * dict) :=
  merge_sort id_le (children coll ds).

(** [collection.order_by(field).stream()]: documents without the field
    are not returned. *)
Definition query_order_by (coll : path) (field : string)
    (ds : gmap path dict) : list (string * dict) :=
  merge_sort (field_le field) (filter (fun e => has_field field e = true) (children coll ds)).

(** *** Commits *)

(** [update] merges the given fields into an existing document and fails
    on a missing one; [set] overwrites; [delete] removes. *)
Definition apply_write (w : write) (ds : gmap path dict)
  : option (gmap path dict) :=
  match w with
  | WSet p d => Some (<[p := d]> ds)
  | WUpdate p d =>
      match ds !! p with
      | Some old => Some (<[p := d ∪ old]> ds)
      | None => None
      end
  | WDelete p => Some (delete p ds)
  end.

(** A commit applies all its writes or none. *)
Fixpoint apply_writes (ws : list write) (ds : gmap path dict)
  : option (gmap path dict) :=
  match ws with
  | [] => Some ds
  | w :: ws' =>
      match apply_write w ds with
      | Some ds' => apply_writes ws' ds'
      | None => None
      end
  end.

Definition commit_to (ws : list write) (s : store) : option store :=
  match apply_writes ws (docs s) with
  | Some ds' => Some {| docs := ds'; commits := commits s ++ [ws] |}
  | None => None
  end.

(** *** Document ids *)

(** The store's rules for the id of a document: it is not empty, holds
    no "/", is neither "." nor "..", and is not of the form [__.*__]. *)
Definition valid_id (id : string) : bool :=
  let l := String.list_ascii_of_string id in
  let underscores := ["_"%char; "_"%char] in
  negb (bool_decide (l = []))
  && forallb (fun a => negb (Ascii.eqb a "/"%char)) l
  && negb (bool_decide (id = "."))
  && negb (bool_decide (id = ".."))
  && negb ((4 <=? length l)%nat
           && bool_decide (take 2 l = underscores)
           && bool_decide (drop (length l - 2) l = underscores)).

(** *** Snapshots *)

(** What [get()] and [stream()] hand back: the reference and, when the
    document exists, a copy of its fields. *)
Record snapshot := Snapshot {
  reference : path;
  data : option dict
}.

(** [snap.exists] *)
Definition snap_exists (s : snapshot) : bool :=
  match data s with Some _ => true | None => false end.

(** [snap.id] *)
Definition snap_id (s : snapshot) : string := default EmptyString (last (reference s)).

Definition snapshot_of (coll : path) (e : string * dict) : snapshot :=
  {| reference := coll ++ [e.1]; data := Some e.2 |}.

End Firestore.

(** ** Running a program: world, exceptions, sequencing *)

Module Runtime.
Import Firestore.

(** The world a program runs in: the store, the clock, the lines waiting
    on standard input, and the source of generated document ids. *)
Record world := World {
  db : store;
  clock : Z;
  stdin : list string;
  auto_ids : nat -> string;
  issued : nat
}.

Inductive exn :=
| EOFError
| KeyError (k : string)
| BadRequestKeyError (k : string)
| AttributeError
| TypeError
| ValueError
| NotFound.

Inductive result (A : Type) :=
| Ok (a : A)
| Raise (e : exn).
Arguments Ok {A} a.
Arguments Raise {A} e.

Definition M (A : Type) : Type := world -> result A * world.

Definition ret {A} (a : A) : M A := fun w => (Ok a, w).
Definition raise {A} (e : exn) : M A := fun w => (Raise e, w).
Definition bind {A B} (m : M A) (k : A -> M B) : M B :=
  fun w => match m w with
           | (Ok a, w') => k a w'
           | (Raise e, w') => (Raise e, w')
           end.

#[global] Instance M_ret : MRet M := @ret.
#[global] Instance M_bind : MBind M := fun A B k m => bind m k.

Fixpoint mapM {A B} (f : A -> M B) (l : list A) : M (list B) :=
  match l with
  | [] => ret []
  | x :: l' =>
      bind (f x) (fun y => bind (mapM f l') (fun ys => ret (y :: ys)))
  end.

Definition with_db (w : world) (s : store) : world :=
  {| db := s; clock := clock w; stdin := stdin w;
     auto_ids := auto_ids w; issued := issued w |}.

(** [input(prompt)]: the next line of standard input, [EOFError] at its
    end. *)
Definition input : M string := fun w =>
  match stdin w with
  | line :: rest =>
      (Ok line, {| db := db w; clock := clock w; stdin := rest;
                   auto_ids := auto_ids w; issued := issued w |})
  | [] => (Raise EOFError, w)
  end.

(** [datetime.now(timezone.utc)] and [datetime.utcnow()] *)
Definition now : M Z := fun w => (Ok (clock w), w).

(** [d[k]] *)
Definition subscript (d : dict) (k : string) : M value :=
  match d !! k with
  | Some v => ret v
  | None => raise (KeyError k)
  end.

End Runtime.

(** ** The store client, as the programs call it *)

Module Client.
Import Firestore Runtime.

(** [collection.document()]: a reference with a generated id. *)
Definition document (coll : path) : M path := fun w =>
  (Ok (coll ++ [auto_ids w (issued w)]),
   {| db := db w; clock := clock w; stdin := stdin w;
      auto_ids := auto_ids w; issued := S (issued w) |}).

(** [collection.document(v)] for a stored value [v].  [None] asks for a
    generated id.  A string is joined to the path of the collection and
    the whole is split again at every "/": a document path has an even
    number of segments, any other raises [ValueError].  A timestamp cannot
    be joined to a path. *)
Definition document_of (coll : path) (v : value) : M path :=
  match v with
  | VStr id =>
      let document_path := coll ++ Py.split "/"%char id in
      if Nat.even (length document_path) then ret document_path
      else raise ValueError
  | VNone => document coll
  | VTime _ => raise TypeError
  end.

(** [ref.get()] *)
Definition get (p : path) : M snapshot := fun w =>
  (Ok {| reference := p; data := docs (db w) !! p |}, w).

(** [list(collection.stream())] *)
Definition stream (coll : path) : M (list snapshot) := fun w =>
  (Ok (snapshot_of coll <$> query_all coll (docs (db w))), w).

(** [list(collection.order_by(field).stream())] *)
Definition order_by_stream (coll : path) (field : string)
  : M (list snapshot) := fun w =>
  (Ok (snapshot_of coll <$> query_order_by coll field (docs (db w))), w).

(** One commit: a single write, or [batch.commit()]. *)
Definition commit (ws : list write) : M unit := fun w =>
  match commit_to ws (db w) with
  | Some s => (Ok tt, with_db w s)
  | None => (Raise NotFound, w)
  end.

Definition set (p : path) (d : dict) : M unit := commit [WSet p d].
Definition update (p : path) (d : dict) : M unit := commit [WUpdate p d].
Definition delete (p : path) : M unit := commit [WDelete p].

(** [batch.delete(ref)] *)
Definition batch_delete (batch : list write) (p : path) : list write :=
  batch ++ [WDelete p].

End Client.

(** ** The web front-end ([app.py]) *)

Module App.
Import Firestore Runtime Client.

(** *** Data classes: [createdAt] is filled in by [__post_init__] *)

Definition post_init (createdAt : option Z) : M Z :=
  match createdAt with
  | None => now
  | Some t => ret t
  end.

Module University.
Record t := { name : string; domain : option string; createdAt : Z }.
Definition init (name : string) (domain : option string)
    (createdAt : option Z) : M t :=
  createdAt ← post_init createdAt;
  ret {| name := name; domain := domain; createdAt := createdAt |}.
Definition asdict (u : t) : dict :=
  list_to_map [("name", VStr (name u)); ("domain", of_option (domain u));
               ("createdAt", VTime (createdAt u))].
End University.

Module Club.
Record t := { name : string; universityId : string;
              description : option string; createdAt : Z }.
Definition init (name universityId : string) (description : option string)
    (createdAt : option Z) : M t :=
  createdAt ← post_init createdAt;
  ret {| name := name; universityId := universityId;
         description := description; createdAt := createdAt |}.
Definition asdict (c : t) : dict :=
  list_to_map [("name", VStr (name c)); ("universityId", VStr (universityId c));
               ("description", of_option (description c));
               ("createdAt", VTime (createdAt c))].
End Club.

Module Person.
Record t := { name : string; email : option string;
              studentId : option string; createdAt : Z }.
Definition init (name : string) (email studentId : option string)
    (createdAt : option Z) : M t :=
  createdAt ← post_init createdAt;
  ret {| name := name; email := email; studentId := studentId;
         createdAt := createdAt |}.
Definition asdict (p : t) : dict :=
  list_to_map [("name", VStr (name p)); ("email", of_option (email p));
               ("studentId", of_option (studentId p));
               ("createdAt", VTime (createdAt p))].
End Person.

Module Membership.
Record t := { personId : string; role : string; status : string;
              title : option string; createdAt : Z }.
Definition init (personId role status : string) (title : option string)
    (createdAt : option Z) : M t :=
  createdAt ← post_init createdAt;
  ret {| personId := personId; role := role; status := status;
         title := title; createdAt := createdAt |}.
Definition asdict (m : t) : dict :=
  list_to_map [("personId", VStr (personId m)); ("role", VStr (role m));
               ("status", VStr (status m)); ("title", of_option (title m));
               ("createdAt", VTime (createdAt m))].
End Membership.

(** *** Requests and responses *)

Inductive http_method := GET | POST.

Record request := Request {
  method : http_method;
  form : gmap string string
}.

(** [request.form[k]] *)
Definition form_get (r : request) (k : string) : M string :=
  match form r !! k with
  | Some v => ret v
  | None => raise (BadRequestKeyError k)
  end.

(** What a handler returns: a redirect to an endpoint or a rendered
    template with its context, and the message it flashed, if any, with
    its category. *)
Inductive view :=
| Redirect (endpoint : string) (args : list string)
| Render (template : string) (context : list (string * list dict)).

Record response := Response {
  flashed : option (string * string);
  body : view
}.

Definition quoted (s : string) : string :=
  String "034"%char (s +:+ String "034"%char EmptyString).

(** *** Helper functions *)

Definition doc_to_dict_with_id (doc : snapshot) : M dict :=
  match data doc with
  | Some d => ret (<["id" := VStr (snap_id doc)]> d)
  | None => raise TypeError
  end.

(** *** University routes *)

Definition universities : M response :=
  docs ← order_by_stream ["universities"] "name";
  universities_data ← mapM doc_to_dict_with_id docs;
  ret {| flashed := None;
         body := Render "universities.html" [("universities", universities_data)] |}.

Definition create_university (request : request) : M response :=
  match method request with
  | POST =>
      name ← form_get request "name";
      let name := Py.strip name in
      domain ← form_get request "domain";
      let domain := Py.or_None (Py.strip domain) in
      if negb (Py.truthy name) then
        ret {| flashed := Some ("University name is required", "error");
               body := Render "create_university.html" [] |}
      else
        ref ← document ["universities"];
        u ← University.init name domain None;
        set ref (University.asdict u);;
        ret {| flashed := Some ("University " +:+ quoted name +:+ " created successfully!", "success");
               body := Redirect "universities" [] |}
  | GET => ret {| flashed := None; body := Render "create_university.html" [] |}
  end.

Definition edit_university (university_id : string) (request : request)
  : M response :=
  doc ← get ["universities"; university_id];
  if negb (snap_exists doc) then
    ret {| flashed := Some ("University not found", "error");
           body := Redirect "universities" [] |}
  else
    match method request with
    | POST =>
        name ← form_get request "name";
        let name := Py.strip name in
        domain ← form_get request "domain";
        let domain := Py.or_None (Py.strip domain) in
        if negb (Py.truthy name) then
          university ← doc_to_dict_with_id doc;
          ret {| flashed := Some ("University name is required", "error");
                 body := Render "edit_university.html" [("university", [university])] |}
        else
          update (reference doc)
            (list_to_map [("name", VStr name); ("domain", of_option domain)]);;
          ret {| flashed := Some ("University " +:+ quoted name +:+ " updated successfully!", "success");
                 body := Redirect "universities" [] |}
    | GET =>
        university ← doc_to_dict_with_id doc;
        ret {| flashed := None;
               body := Render "edit_university.html" [("university", [university])] |}
    end.

Definition delete_university (university_id : string) : M response :=
  doc ← get ["universities"; university_id];
  msg ← (if snap_exists doc then
           delete (reference doc);;
           ret ("University deleted successfully!", "success")
         else
           ret ("University not found", "error"));
  ret {| flashed := Some msg; body := Redirect "universities" [] |}.

(** *** Club routes *)

(** The body of the loop of [clubs]: one row of the listing. *)
Definition club_row (doc : snapshot) : M dict :=
  club_data ← doc_to_dict_with_id doc;
  universityId ← subscript club_data "universityId";
  uni_ref ← document_of ["universities"] universityId;
  uni_doc ← get uni_ref;
  let universityName :=
    match data uni_doc with
    | Some d => dict_get_default d "name" (VStr "Unknown")
    | None => VStr "Unknown"
    end in
  ret (<["universityName" := universityName]> club_data).

Definition clubs : M response :=
  docs ← order_by_stream ["clubs"] "name";
  clubs_data ← mapM club_row docs;
  ret {| flashed := None; body := Render "clubs.html" [("clubs", clubs_data)] |}.

Definition create_club (request : request) : M response :=
  match method request with
  | POST =>
      name ← form_get request "name";
      let name := Py.strip name in
      university_id ← form_get request "universityId";
      description ← form_get request "description";
      let description := Py.or_None (Py.strip description) in
      if negb (Py.truthy name) || negb (Py.truthy university_id) then
        docs ← order_by_stream ["universities"] "name";
        universities_data ← mapM doc_to_dict_with_id docs;
        ret {| flashed := Some ("Club name and university are required", "error");
               body := Render "create_club.html" [("universities", universities_data)] |}
      else
        ref ← document ["clubs"];
        c ← Club.init name university_id description None;
        set ref (Club.asdict c);;
        ret {| flashed := Some ("Club " +:+ quoted name +:+ " created successfully!", "success");
               body := Redirect "clubs" [] |}
  | GET =>
      docs ← order_by_stream ["universities"] "name";
      universities_data ← mapM doc_to_dict_with_id docs;
      ret {| flashed := None;
             body := Render "create_club.html" [("universities", universities_data)] |}
  end.

Definition edit_club (club_id : string) (request : request) : M response :=
  doc ← get ["clubs"; club_id];
  if negb (snap_exists doc) then
    ret {| flashed := Some ("Club not found", "error");
           body := Redirect "clubs" [] |}
  else
    match method request with
    | POST =>
        name ← form_get request "name";
        let name := Py.strip name in
        description ← form_get request "description";
        let description := Py.or_None (Py.strip description) in
        if negb (Py.truthy name) then
          club ← doc_to_dict_with_id doc;
          ret {| flashed := Some ("Club name is required", "error");
                 body := Render "edit_club.html" [("club", [club])] |}
        else
          update (reference doc)
            (list_to_map [("name", VStr name); ("description", of_option description)]);;
          ret {| flashed := Some ("Club " +:+ quoted name +:+ " updated successfully!", "success");
                 body := Redirect "clubs" [] |}
    | GET =>
        club ← doc_to_dict_with_id doc;
        ret {| flashed := None; body := Render "edit_club.html" [("club", [club])] |}
    end.

Definition delete_club (club_id : string) : M response :=
  doc ← get ["clubs"; club_id];
  msg ← (if snap_exists doc then
           mem_docs ← stream (reference doc ++ ["memberships"]);
           let batch := [] in
           let batch := foldl (fun b mem_doc => batch_delete b (reference mem_doc)) batch mem_docs in
           let batch := batch_delete batch (reference doc) in
           commit batch;;
           ret ("Club and its memberships deleted successfully!", "success")
         else
           ret ("Club not found", "error"));
  ret {| flashed := Some msg; body := Redirect "clubs" [] |}.

(** *** People routes *)

Definition people : M response :=
  docs ← order_by_stream ["people"] "name";
  people_data ← mapM doc_to_dict_with_id docs;
  ret {| flashed := None; body := Render "people.html" [("people", people_data)] |}.

Definition create_person (request : request) : M response :=
  match method request with
  | POST =>
      name ← form_get request "name";
      let name := Py.strip name in
      email ← form_get request "email";
      let email := Py.or_None (Py.strip email) in
      student_id ← form_get request "studentId";
      let student_id := Py.or_None (Py.strip student_id) in
      if negb (Py.truthy name) then
        ret {| flashed := Some ("Person name is required", "error");
               body := Render "create_person.html" [] |}
      else
        ref ← document ["people"];
        p ← Person.init name email student_id None;
        set ref (Person.asdict p);;
        ret {| flashed := Some ("Person " +:+ quoted name +:+ " created successfully!", "success");
               body := Redirect "people" [] |}
  | GET => ret {| flashed := None; body := Render "create_person.html" [] |}
  end.

Definition edit_person (person_id : string) (request : request) : M response :=
  doc ← get ["people"; person_id];
  if negb (snap_exists doc) then
    ret {| flashed := Some ("Person not found", "error");
           body := Redirect "people" [] |}
  else
    match method request with
    | POST =>
        name ← form_get request "name";
        let name := Py.strip name in
        email ← form_get request "email";
        let email := Py.or_None (Py.strip email) in
        student_id ← form_get request "studentId";
        let student_id := Py.or_None (Py.strip student_id) in
        if negb (Py.truthy name) then
          person ← doc_to_dict_with_id doc;
          ret {| flashed := Some ("Person name is required", "error");
                 body := Render "edit_person.html" [("person", [person])] |}
        else
          update (reference doc)
            (list_to_map [("name", VStr name); ("email", of_option email);
                          ("studentId", of_option student_id)]);;
          ret {| flashed := Some ("Person " +:+ quoted name +:+ " updated successfully!", "success");
                 body := Redirect "people" [] |}
    | GET =>
        person ← doc_to_dict_with_id doc;
        ret {| flashed := None; body := Render "edit_person.html" [("person", [person])] |}
    end.

Definition delete_person (person_id : string) : M response :=
  doc ← get ["people"; person_id];
  msg ← (if snap_exists doc then
           delete (reference doc);;
           ret ("Person deleted successfully!", "success")
         else
           ret ("Person not found", "error"));
  ret {| flashed := Some msg; body := Redirect "people" [] |}.

(** *** Membership routes *)

(** The body of the loop of [club_members]: one row of the listing. *)
Definition member_row (mem_doc : snapshot) : M dict :=
  mem_data ← doc_to_dict_with_id mem_doc;
  personId ← subscript mem_data "personId";
  person_ref ← document_of ["people"] personId;
  person_doc ← get person_ref;
  let personName :=
    match data person_doc with
    | Some d => dict_get_default d "name" (VStr "Unknown")
    | None => VStr "Unknown"
    end in
  let mem_data := <["personName" := personName]> mem_data in
  let personEmail :=
    match data person_doc with
    | Some d => dict_get_default d "email" (VStr EmptyString)
    | None => VStr EmptyString
    end in
  let mem_data := <["personEmail" := personEmail]> mem_data in
  ret mem_data.

Definition club_members (club_id : string) : M response :=
  club_doc ← get ["clubs"; club_id];
  if negb (snap_exists club_doc) then
    ret {| flashed := Some ("Club not found", "error");
           body := Redirect "clubs" [] |}
  else
    club_data ← doc_to_dict_with_id club_doc;
    mem_docs ← stream (reference club_doc ++ ["memberships"]);
    members_data ← mapM member_row mem_docs;
    ret {| flashed := None;
           body := Render "club_members.html"
                     [("club", [club_data]); ("members", members_data)] |}.

Definition add_member (club_id : string) (request : request) : M response :=
  club_doc ← get ["clubs"; club_id];
  if negb (snap_exists club_doc) then
    ret {| flashed := Some ("Club not found", "error");
           body := Redirect "clubs" [] |}
  else
    match method request with
    | POST =>
        person_id ← form_get request "personId";
        role ← form_get request "role";
        let role := Py.or_str role "member" in
        status ← form_get request "status";
        let status := Py.or_str status "active" in
        title ← form_get request "title";
        let title := Py.or_None (Py.strip title) in
        if negb (Py.truthy person_id) then
          docs ← order_by_stream ["people"] "name";
          people_data ← mapM doc_to_dict_with_id docs;
          club ← doc_to_dict_with_id club_doc;
          ret {| flashed := Some ("Person is required", "error");
                 body := Render "add_member.html"
                           [("club", [club]); ("people", people_data)] |}
        else
          ref ← document (reference club_doc ++ ["memberships"]);
          m ← Membership.init person_id role status title None;
          set ref (Membership.asdict m);;
          ret {| flashed := Some ("Member added successfully!", "success");
                 body := Redirect "club_members" [club_id] |}
    | GET =>
        docs ← order_by_stream ["people"] "name";
        people_data ← mapM doc_to_dict_with_id docs;
        club ← doc_to_dict_with_id club_doc;
        ret {| flashed := None;
               body := Render "add_member.html"
                         [("club", [club]); ("people", people_data)] |}
    end.

Definition edit_member (club_id member_id : string) (request : request)
  : M response :=
  club_doc ← get ["clubs"; club_id];
  if negb (snap_exists club_doc) then
    ret {| flashed := Some ("Club not found", "error");
           body := Redirect "clubs" [] |}
  else
    mem_doc ← get (reference club_doc ++ ["memberships"; member_id]);
    if negb (snap_exists mem_doc) then
      ret {| flashed := Some ("Member not found", "error");
             body := Redirect "club_members" [club_id] |}
    else
      match method request with
      | POST =>
          role ← form_get request "role";
          let role := Py.or_str role "member" in
          status ← form_get request "status";
          let status := Py.or_str status "active" in
          title ← form_get request "title";
          let title := Py.or_None (Py.strip title) in
          update (reference mem_doc)
            (list_to_map [("role", VStr role); ("status", VStr status);
                          ("title", of_option title)]);;
          ret {| flashed := Some ("Member updated successfully!", "success");
                 body := Redirect "club_members" [club_id] |}
      | GET =>
          member_data ← doc_to_dict_with_id mem_doc;
          personId ← subscript member_data "personId";
          person_ref ← document_of ["people"] personId;
          person_doc ← get person_ref;
          let personName :=
            match data person_doc with
            | Some d => dict_get_default d "name" (VStr "Unknown")
            | None => VStr "Unknown"
            end in
          let member_data := <["personName" := personName]> member_data in
          club ← doc_to_dict_with_id club_doc;
          ret {| flashed := None;
                 body := Render "edit_member.html"
                           [("club", [club]); ("member", [member_data])] |}
      end.

Definition delete_member (club_id member_id : string) : M response :=
  club_doc ← get ["clubs"; club_id];
  msg ← (if snap_exists club_doc then
           mem_doc ← get (reference club_doc ++ ["memberships"; member_id]);
           if snap_exists mem_doc then
             delete (reference mem_doc);;
             ret ("Member removed successfully!", "success")
           else
             ret ("Member not found", "error")
         else
           ret ("Club not found", "error"));
  ret {| flashed := Some msg; body := Redirect "club_members" [club_id] |}.

End App.

(** ** The terminal front-end ([main.py]) *)

Module Main.
Import Firestore Runtime Client.

(** *** Data classes: [createdAt] has a default in the class body

    [createdAt: datetime = datetime.utcnow()] is evaluated when the class
    statement runs, that is once, when the module is loaded. *)

Record class_defaults := {
  University_createdAt : Z;
  Club_createdAt : Z;
  Person_createdAt : Z;
  Membership_createdAt : Z
}.

(** Running the four class statements. *)
Definition load_classes : M class_defaults :=
  u ← now; c ← now; p ← now; m ← now;
  ret {| University_createdAt := u; Club_createdAt := c;
         Person_createdAt := p; Membership_createdAt := m |}.

Module University.
Record t := { name : string; domain : option string; createdAt : Z }.
Definition init (cls : class_defaults) (name : string)
    (domain : option string) (createdAt : option Z) : t :=
  {| name := name; domain := domain;
     createdAt := default (University_createdAt cls) createdAt |}.
Definition asdict (u : t) : dict :=
  list_to_map [("name", VStr (name u)); ("domain", of_option (domain u));
               ("createdAt", VTime (createdAt u))].
End University.

Module Club.
Record t := { name : string; universityId : string;
              description : option string; createdAt : Z }.
Definition init (cls : class_defaults) (name universityId : string)
    (description : option string) (createdAt : option Z) : t :=
  {| name := name; universityId := universityId; description := description;
     createdAt := default (Club_createdAt cls) createdAt |}.
Definition asdict (c : t) : dict :=
  list_to_map [("name", VStr (name c)); ("universityId", VStr (universityId c));
               ("description", of_option (description c));
               ("createdAt", VTime (createdAt c))].
End Club.

Module Person.
Record t := { name : string; email : option string;
              studentId : option string; createdAt : Z }.
Definition init (cls : class_defaults) (name : string)
    (email studentId : option string) (createdAt : option Z) : t :=
  {| name := name; email := email; studentId := studentId;
     createdAt := default (Person_createdAt cls) createdAt |}.
Definition asdict (p : t) : dict :=
  list_to_map [("name", VStr (name p)); ("email", of_option (email p));
               ("studentId", of_option (studentId p));
               ("createdAt", VTime (createdAt p))].
End Person.

Module Membership.
Record t := { personId : string; role : string; status : string;
              title : option string; createdAt : Z }.
Definition init (cls : class_defaults) (personId role status : string)
    (title : option string) (createdAt : option Z) : t :=
  {| personId := personId; role := role; status := status; title := title;
     createdAt := default (Membership_createdAt cls) createdAt |}.
Definition asdict (m : t) : dict :=
  list_to_map [("personId", VStr (personId m)); ("role", VStr (role m));
               ("status", VStr (status m)); ("title", of_option (title m));
               ("createdAt", VTime (createdAt m))].
End Membership.

(** *** Helpers *)

(** What a menu action reports on the terminal. *)
Inductive outcome :=
| Returned
| Created (id : string)
| Updated
| Deleted
| Cancelled.

Definition _choose (items : list snapshot) : M (option snapshot) :=
  match items with
  | [] => ret None
  | _ :: _ =>
      sel ← input;
      let sel := Py.strip sel in
      if negb (Py.truthy sel) then ret None
      else
        match Py.int sel with
        | Some n => ret (Py.index items (n - 1))
        | None => ret None
        end
  end.

(** [snap.to_dict()] followed by [.get]: [None] has no such attribute. *)
Definition to_dict (snap : snapshot) : M dict :=
  match data snap with
  | Some d => ret d
  | None => raise AttributeError
  end.

(** [s or v] for a stored value [v]. *)
Definition or_value (s : string) (v : value) : value :=
  if Py.truthy s then VStr s else v.

(** *** Universities *)

Definition create_university (cls : class_defaults) : M outcome :=
  name ← input;
  let name := Py.strip name in
  domain ← input;
  let domain := Py.or_None (Py.strip domain) in
  ref ← document ["universities"];
  set ref (University.asdict (University.init cls name domain None));;
  ret (Created (default EmptyString (last ref))).

Definition list_universities : M (list snapshot) :=
  order_by_stream ["universities"] "name".

Definition update_university : M outcome :=
  snaps ← order_by_stream ["universities"] "name";
  chosen ← _choose snaps;
  match chosen with
  | None => ret Returned
  | Some chosen =>
      data ← to_dict chosen;
      new_name ← input;
      let new_name := or_value (Py.strip new_name) (dict_get data "name") in
      new_domain ← input;
      let new_domain := or_value (Py.strip new_domain) (dict_get data "domain") in
      update (reference chosen)
        (list_to_map [("name", new_name); ("domain", new_domain)]);;
      ret Updated
  end.

Definition delete_university : M outcome :=
  snaps ← order_by_stream ["universities"] "name";
  chosen ← _choose snaps;
  match chosen with
  | None => ret Returned
  | Some chosen =>
      confirm ← input;
      let confirm := Py.strip confirm in
      if decide (confirm = "DELETE") then
        delete (reference chosen);;
        ret Deleted
      else ret Cancelled
  end.

(** *** Clubs *)

Definition create_club (cls : class_defaults) : M outcome :=
  u_snaps ← order_by_stream ["universities"] "name";
  u ← _choose u_snaps;
  match u with
  | None => ret Returned
  | Some u =>
      name ← input;
      let name := Py.strip name in
      description ← input;
      let description := Py.or_None (Py.strip description) in
      ref ← document ["clubs"];
      set ref (Club.asdict (Club.init cls name (snap_id u) description None));;
      ret (Created (default EmptyString (last ref)))
  end.

Definition list_clubs : M (list snapshot) :=
  order_by_stream ["clubs"] "name".

Definition update_club : M outcome :=
  snaps ← order_by_stream ["clubs"] "name";
  chosen ← _choose snaps;
  match chosen with
  | None => ret Returned
  | Some chosen =>
      data ← to_dict chosen;
      new_name ← input;
      let new_name := or_value (Py.strip new_name) (dict_get data "name") in
      new_desc ← input;
      let new_desc := or_value (Py.strip new_desc) (dict_get data "description") in
      update (reference chosen)
        (list_to_map [("name", new_name); ("description", new_desc)]);;
      ret Updated
  end.

Definition delete_club : M outcome :=
  snaps ← order_by_stream ["clubs"] "name";
  chosen ← _choose snaps;
  match chosen with
  | None => ret Returned
  | Some chosen =>
      confirm ← input;
      let confirm := Py.strip confirm in
      if decide (confirm = "DELETE") then
        mem_snaps ← stream (reference chosen ++ ["memberships"]);
        let batch := [] in
        let batch := foldl (fun b m => batch_delete b (reference m)) batch mem_snaps in
        let batch := batch_delete batch (reference chosen) in
        commit batch;;
        ret Deleted
      else ret Cancelled
  end.

(** *** People *)

Definition create_person (cls : class_defaults) : M outcome :=
  name ← input;
  let name := Py.strip name in
  email ← input;
  let email := Py.or_None (Py.strip email) in
  sid ← input;
  let sid := Py.or_None (Py.strip sid) in
  ref ← document ["people"];
  set ref (Person.asdict (Person.init cls name email sid None));;
  ret (Created (default EmptyString (last ref))).

Definition list_people : M (list snapshot) :=
  order_by_stream ["people"] "name".

Definition update_person : M outcome :=
  snaps ← order_by_stream ["people"] "name";
  chosen ← _choose snaps;
  match chosen with
  | None => ret Returned
  | Some chosen =>
      data ← to_dict chosen;
      new_name ← input;
      let new_name := or_value (Py.strip new_name) (dict_get data "name") in
      new_email ← input;
      let new_email := or_value (Py.strip new_email) (dict_get data "email") in
      new_sid ← input;
      let new_sid := or_value (Py.strip new_sid) (dict_get data "studentId") in
      update (reference chosen)
        (list_to_map [("name", new_name); ("email", new_email);
                      ("studentId", new_sid)]);;
      ret Updated
  end.

Definition delete_person : M outcome :=
  snaps ← order_by_stream ["people"] "name";
  chosen ← _choose snaps;
  match chosen with
  | None => ret Returned
  | Some chosen =>
      confirm ← input;
      let confirm := Py.strip confirm in
      if decide (confirm = "DELETE") then
        delete (reference chosen);;
        ret Deleted
      else ret Cancelled
  end.

(** *** Memberships, under a chosen club *)

Definition add_membership (cls : class_defaults) : M outcome :=
  clubs ← order_by_stream ["clubs"] "name";
  club ← _choose clubs;
  match club with
  | None => ret Returned
  | Some club =>
      people ← order_by_stream ["people"] "name";
      person ← _choose people;
      match person with
      | None => ret Returned
      | Some person =>
          role ← input;
          let role := Py.or_str (Py.strip role) "member" in
          status ← input;
          let status := Py.or_str (Py.strip status) "active" in
          title ← input;
          let title := Py.or_None (Py.strip title) in
          let mem := Membership.init cls (snap_id person) role status title None in
          ref ← document (reference club ++ ["memberships"]);
          set ref (Membership.asdict mem);;
          ret (Created (default EmptyString (last ref)))
      end
  end.

Definition list_memberships : M (option (list snapshot)) :=
  clubs ← order_by_stream ["clubs"] "name";
  club ← _choose clubs;
  match club with
  | None => ret None
  | Some club =>
      snaps ← stream (reference club ++ ["memberships"]);
      ret (Some snaps)
  end.

Definition update_membership : M outcome :=
  clubs ← order_by_stream ["clubs"] "name";
  club ← _choose clubs;
  match club with
  | None => ret Returned
  | Some club =>
      mems ← stream (reference club ++ ["memberships"]);
      mem ← _choose mems;
      match mem with
      | None => ret Returned
      | Some mem =>
          data ← to_dict mem;
          new_role ← input;
          let new_role := or_value (Py.strip new_role) (dict_get data "role") in
          new_status ← input;
          let new_status := or_value (Py.strip new_status) (dict_get data "status") in
          new_title ← input;
          let new_title := or_value (Py.strip new_title) (dict_get data "title") in
          update (reference mem)
            (list_to_map [("role", new_role); ("status", new_status);
                          ("title", new_title)]);;
          ret Updated
      end
  end.

Definition delete_membership : M outcome :=
  clubs ← order_by_stream ["clubs"] "name";
  club ← _choose clubs;
  match club with
  | None => ret Returned
  | Some club =>
      mems ← stream (reference club ++ ["memberships"]);
      mem ← _choose mems;
      match mem with
      | None => ret Returned
      | Some mem =>
          confirm ← input;
          let confirm := Py.strip confirm in
          if decide (confirm = "DELETE") then
            delete (reference mem);;
            ret Deleted
          else ret Cancelled
      end
  end.

(** *** Queries *)

(** One printed line of [list_club_members]: name, role, status, title. *)
Definition member_line (m : snapshot) : M (value * value * value * value) :=
  md ← match data m with
       | Some md => ret md
       | None => raise TypeError
       end;
  personId ← subscript md "personId";
  person_ref ← document_of ["people"] personId;
  person ← get person_ref;
  pd ← to_dict person;
  ret (dict_get_default pd "name" (VStr "?"),
       dict_get md "role", dict_get md "status", dict_get md "title").

Definition list_club_members (club_id : string)
  : M (list (value * value * value * value)) :=
  club_ref ← document_of ["clubs"] (VStr club_id);
  mems ← stream (club_ref ++ ["memberships"]);
  mapM member_line mems.

(** *** The menu *)

(** One pass through the [if]/[elif] chain of [main], for a choice other
    than "0". *)
Definition menu_action (cls : class_defaults) (choice : string) : M unit :=
  if decide (choice = "1") then create_university cls;; ret tt
  else if decide (choice = "2") then list_universities;; ret tt
  else if decide (choice = "3") then update_university;; ret tt
  else if decide (choice = "4") then delete_university;; ret tt
  else if decide (choice = "5") then create_club cls;; ret tt
  else if decide (choice = "6") then list_clubs;; ret tt
  else if decide (choice = "7") then update_club;; ret tt
  else if decide (choice = "8") then delete_club;; ret tt
  else if decide (choice = "9") then create_person cls;; ret tt
  else if decide (choice = "10") then list_people;; ret tt
  else if decide (choice = "11") then update_person;; ret tt
  else if decide (choice = "12") then delete_person;; ret tt
  else if decide (choice = "13") then add_membership cls;; ret tt
  else if decide (choice = "14") then list_memberships;; ret tt
  else if decide (choice = "15") then update_membership;; ret tt
  else if decide (choice = "16") then delete_membership;; ret tt
  else if decide (choice = "17") then
    club_id ← input;
    let club_id := Py.strip club_id in
    if Py.truthy club_id then list_club_members club_id;; ret tt
    else ret tt
  else ret tt.

(** [main]: the [while True] loop, run for at most [fuel] passes.  The
    loop ends with [Some tt] at the choice "0" or at the end of the input;
    [None] says the passes ran out.  An exception raised inside an action
    is not caught. *)
Fixpoint main (fuel : nat) (cls : class_defaults) : M (option unit) :=
  match fuel with
  | O => ret None
  | S fuel' => fun w =>
      match input w with
      | (Raise EOFError, w') => (Ok (Some tt), w')
      | (Raise e, w') => (Raise e, w')
      | (Ok choice, w') =>
          let choice := Py.strip choice in
          if decide (choice = "0") then (Ok (Some tt), w')
          else (menu_action cls choice;; main fuel' cls) w'
      end
  end.

End Main.

(** * Vocabulary of the statements *)

Module Spec.
Import Firestore Runtime.

(** A listed document as a template sees it: its fields and its id. *)
Definition with_id (e : string * dict) : dict := <["id" := VStr e.1]> e.2.

(** The world with the given lines waiting on standard input. *)
Definition feed (w : world) (lines : list string) : world :=
  {| db := db w; clock := clock w; stdin := lines;
     auto_ids := auto_ids w; issued := issued w |}.

(** The answer [sel] to the prompt of [_choose], resolved against the
    listed items. *)
Definition pick (items : list snapshot) (sel : string) : option snapshot :=
  let sel := Py.strip sel in
  if negb (Py.truthy sel) then None
  else match Py.int sel with
       | Some n => Py.index items (n - 1)
       | None => None
       end.

(** The listing a menu action offers for a top-level collection. *)
Definition offered (coll : string) (w : world) : list snapshot :=
  snapshot_of [coll] <$> query_order_by [coll] "name" (docs (db w)).

(** The memberships listing offered under a club. *)
Definition offered_members (club : path) (w : world) : list snapshot :=
  snapshot_of (club ++ ["memberships"]) <$>
    query_all (club ++ ["memberships"]) (docs (db w)).

(** The documents a club deletion removes: every membership under the
    club, then the club. *)
Definition cascade (club : path) (ds : gmap path dict) : list path :=
  ((fun e => (club ++ ["memberships"]) ++ [e.1]) <$>
     query_all (club ++ ["memberships"]) ds) ++ [club].

Definition remove_all (ps : list path) (ds : gmap path dict) : gmap path dict :=
  foldl (fun m p => delete p m) ds ps.

(** Document [e] names another document by a string id in field [k]. *)
Definition refers (k : string) (e : string * dict) : Prop :=
  ∃ id, e.2 !! k = Some (VStr id).






(** The rows a response hands to its template under [name]. *)
Definition context_of (r : result App.response) (name : string) : list dict :=
  match r with
  | Ok {| App.body := App.Render _ ctx |} =>
      default [] ((fun x => x.2.2) <$> list_find (fun kv => kv.1 = name) ctx)
  | _ => []
  end.


(** *** Terminal updates *)

(** The four kinds of document; a membership lives under a club. *)
Inductive kind :=
| Universities
| Clubs
| People
| Memberships (club_id : string).

Definition collection_of (k : kind) : path :=
  match k with
  | Universities => ["universities"]
  | Clubs => ["clubs"]
  | People => ["people"]
  | Memberships club_id => ["clubs"; club_id; "memberships"]
  end.

(** The terminal update action for each kind, and the fields it prompts
    for, in order. *)
Definition update_of (k : kind) : M Main.outcome :=
  match k with
  | Universities => Main.update_university
  | Clubs => Main.update_club
  | People => Main.update_person
  | Memberships _ => Main.update_membership
  end.

Definition prompts_of (k : kind) : list string :=
  match k with
  | Universities => ["name"; "domain"]
  | Clubs => ["name"; "description"]
  | People => ["name"; "email"; "studentId"]
  | Memberships _ => ["role"; "status"; "title"]
  end.

(** The selection lines [sels] typed at the [_choose] prompts of the
    update action lead to document [id] of kind [k], whose fields are
    [old]. *)
Definition chooses (k : kind) (w : world) (sels : list string)
    (id : string) (old : dict) : Prop :=
  match k, sels with
  | Memberships club_id, [s1; s2] =>
      (∃ club, pick (offered "clubs" w) s1 = Some (snapshot_of ["clubs"] (club_id, club)))
      ∧ pick (offered_members ["clubs"; club_id] w) s2 =
          Some (snapshot_of ["clubs"; club_id; "memberships"] (id, old))
  | Universities, [s] =>
      pick (offered "universities" w) s = Some (snapshot_of ["universities"] (id, old))
  | Clubs, [s] =>
      pick (offered "clubs" w) s = Some (snapshot_of ["clubs"] (id, old))
  | People, [s] =>
      pick (offered "people" w) s = Some (snapshot_of ["people"] (id, old))
  | _, _ => False
  end.

(** The fields a terminal update writes, from the stored fields and the
    answers to its prompts. *)
Definition keep_or_replace (old : dict) (answers : list (string * string)) : dict :=
  list_to_map
    ((fun fa => (fa.1, Main.or_value (Py.strip fa.2) (dict_get old fa.1))) <$> answers).

(** The store after an [update] of document [p], whose fields were [old],
    with [fields]. *)
Definition updated (s : store) (p : path) (old fields : dict) : store :=
  {| docs := <[p := fields ∪ old]> (docs s);
     commits := commits s ++ [[WUpdate p fields]] |}.

(** *** Updates and [createdAt] *)

(** Between two worlds the same documents exist, under the same paths,
    and each has the [createdAt] it had. *)
Definition createdAt_kept (w w' : world) : Prop :=
  dom (docs (db w')) = dom (docs (db w))
  ∧ ∀ p d d', docs (db w) !! p = Some d → docs (db w') !! p = Some d' →
              d' !! "createdAt" = d !! "createdAt".

(** A program keeps them, whatever world it starts in and however it
    ends. *)
Definition stable {A} (m : M A) : Prop := ∀ w, createdAt_kept w (m w).2.

(** The update operations of the two front-ends. *)
Inductive update_op :=
| Edit_university (university_id : string) (request : App.request)
| Edit_club (club_id : string) (request : App.request)
| Edit_person (person_id : string) (request : App.request)
| Edit_member (club_id member_id : string) (request : App.request)
| Update_university
| Update_club
| Update_person
| Update_membership.

(** The world an update operation leaves. *)
Definition after_update (op : update_op) (w : world) : world :=
  match op with
  | Edit_university id r => (App.edit_university id r w).2
  | Edit_club id r => (App.edit_club id r w).2
  | Edit_person id r => (App.edit_person id r w).2
  | Edit_member c m r => (App.edit_member c m r w).2
  | Update_university => (Main.update_university w).2
  | Update_club => (Main.update_club w).2
  | Update_person => (Main.update_person w).2
  | Update_membership => (Main.update_membership w).2
  end.

(** *** A small store used in the examples

    One university, one club with two memberships, one person; the second
    membership refers to a person who is not in the store. *)

Definition sample_university : dict :=
  list_to_map [("name", VStr "UTA"); ("domain", VStr "uta.edu");
               ("createdAt", VTime 1)].

Definition sample_club : dict :=
  list_to_map [("name", VStr "Chess Club"); ("universityId", VStr "u1");
               ("description", VNone); ("createdAt", VTime 2)].

Definition sample_person : dict :=
  list_to_map [("name", VStr "Ada"); ("email", VStr "ada@uta.edu");
               ("studentId", VNone); ("createdAt", VTime 3)].

Definition sample_member : dict :=
  list_to_map [("personId", VStr "p1"); ("role", VStr "officer");
               ("status", VStr "active"); ("title", VStr "VP");
               ("createdAt", VTime 4)].

Definition sample_stale_member : dict :=
  list_to_map [("personId", VStr "gone"); ("role", VStr "member");
               ("status", VStr "active"); ("title", VNone);
               ("createdAt", VTime 5)].

Definition sample_docs : gmap path dict :=
  list_to_map [(["universities"; "u1"], sample_university);
               (["clubs"; "c1"], sample_club);
               (["people"; "p1"], sample_person);
               (["clubs"; "c1"; "memberships"; "m1"], sample_member);
               (["clubs"; "c1"; "memberships"; "m2"], sample_stale_member)].

Definition sample_ids (n : nat) : string :=
  match n with
  | 0 => "q7"
  | 1 => "k2"
  | _ => "z9"
  end.

Definition sample_world : world :=
  {| db := {| docs := sample_docs; commits := [] |};
     clock := 100; stdin := []; auto_ids := sample_ids; issued := 0 |}.

(** The sample store without its person, and without its university. *)
Definition no_person_world : world :=
  {| db := {| docs := delete ["people"; "p1"] sample_docs; commits := [] |};
     clock := 100; stdin := []; auto_ids := sample_ids; issued := 0 |}.

Definition no_university_world : world :=
  {| db := {| docs := delete ["universities"; "u1"] sample_docs; commits := [] |};
     clock := 100; stdin := []; auto_ids := sample_ids; issued := 0 |}.

(** The class defaults of a terminal session started at time 100. *)
Definition sample_classes : Main.class_defaults :=
  {| Main.University_createdAt := 100; Main.Club_createdAt := 100;
     Main.Person_createdAt := 100; Main.Membership_createdAt := 100 |}.

(** The sample world at a later time. *)
Definition at_time (t : Z) (w : world) : world :=
  {| db := db w; clock := t; stdin := stdin w;
     auto_ids := auto_ids w; issued := issued w |}.

(** Two memberships added to the sample club through the web form, the
    first at time 100 and the second at time 200; the store hands out the
    ids "q7" and then "k2". *)
Definition member_form : App.request :=
  App.Request App.POST
    (list_to_map [("personId", "p1"); ("role", "member");
                  ("status", "active"); ("title", " ")]).

Definition two_more_members : world :=
  (App.add_member "c1" member_form
     (at_time 200 (App.add_member "c1" member_form sample_world).2)).2.

End Spec.

(** * Properties *)

Import Firestore Runtime Spec.

(** ** The store model *)

Lemma split_path_Some (p c : path) (id : string) :
  split_path p = Some (c, id) ↔ p = c ++ [id].
Proof.
  unfold split_path. split.
  - destruct (reverse p) as [|x rc] eqn:E; [done|].
    intros [= <- <-]. rewrite <- reverse_cons, <- E.
    by rewrite reverse_involutive.
  - intros ->. rewrite reverse_app. simpl.
    by rewrite reverse_involutive.
Qed.

Lemma in_collection_Some (coll : path) (e : path * dict) id d :
  in_collection coll e = Some (id, d) ↔ e = (coll ++ [id], d).
Proof.
  destruct e as [p d']. unfold in_collection. simpl. split.
  - destruct (split_path p) as [[c i]|] eqn:E; [|done].
    case_decide; [|done]. intros [= <- <-]. subst c.
    apply split_path_Some in E. by subst.
  - intros [= -> ->].
    assert (split_path (coll ++ [id]) = Some (coll, id)) as ->
      by by apply split_path_Some.
    by rewrite decide_True.
Qed.

(** A collection's listing holds exactly the documents stored under it. *)
Lemma elem_of_children (coll : path) (ds : gmap path dict) id d :
  (id, d) ∈ children coll ds ↔ ds !! (coll ++ [id]) = Some d.
Proof.
  unfold children. rewrite list_elem_of_omap. split.
  - intros [e [He Hc]]. apply in_collection_Some in Hc. subst e.
    by apply elem_of_map_to_list in He.
  - intros H. exists (coll ++ [id], d). split.
    + by apply elem_of_map_to_list.
    + by apply in_collection_Some.
Qed.

Lemma NoDup_children_ids (coll : path) (ds : gmap path dict) :
  NoDup (children coll ds).*1.
Proof.
  unfold children.
  pose proof (NoDup_fst_map_to_list ds) as Hnd.
  induction (map_to_list ds) as [|[p d] l IH]; simpl; [constructor|].
  apply NoDup_cons in Hnd as [Hp Hl].
  destruct (in_collection coll (p, d)) as [[id d']|] eqn:E; simpl; [|auto].
  apply in_collection_Some in E. injection E as -> ->.
  apply NoDup_cons. split; [|auto].
  intros Hin. apply Hp.
  apply list_elem_of_fmap in Hin as [[id' d2] [-> Hin]].
  apply list_elem_of_omap in Hin as [e [He Hc]].
  apply in_collection_Some in Hc. subst e.
  apply list_elem_of_fmap. by exists (coll ++ [id'], d2).
Qed.

Lemma children_empty (coll : path) : children coll ∅ = [].
Proof. unfold children. by rewrite map_to_list_empty. Qed.

Lemma query_all_Permutation (coll : path) (ds : gmap path dict) : query_all coll ds ≡ₚ children coll ds.
Proof. apply merge_sort_Permutation. Qed.

Lemma elem_of_query_all (coll : path) (ds : gmap path dict) id d :
  (id, d) ∈ query_all coll ds ↔ ds !! (coll ++ [id]) = Some d.
Proof. by rewrite query_all_Permutation, elem_of_children. Qed.

Lemma NoDup_query_all_ids (coll : path) (ds : gmap path dict) : NoDup (query_all coll ds).*1.
Proof.
  rewrite query_all_Permutation. apply NoDup_children_ids.
Qed.

Lemma elem_of_query_order_by (coll : path) (field : string) (ds : gmap path dict) id d :
  (id, d) ∈ query_order_by coll field ds ↔
  ds !! (coll ++ [id]) = Some d ∧ is_Some (d !! field).
Proof.
  unfold query_order_by. rewrite merge_sort_Permutation.
  rewrite list_elem_of_filter, elem_of_children. unfold has_field. simpl.
  rewrite bool_decide_eq_true. tauto.
Qed.

Lemma NoDup_query_order_by_ids (coll : path) (field : string) (ds : gmap path dict) :
  NoDup (query_order_by coll field ds).*1.
Proof.
  unfold query_order_by. rewrite merge_sort_Permutation.
  apply NoDup_fmap_fst.
  - intros id d1 d2 H1 H2.
    apply list_elem_of_filter in H1 as [_ H1], H2 as [_ H2].
    apply elem_of_children in H1, H2. congruence.
  - apply NoDup_filter.
    eapply NoDup_fmap_1. apply (NoDup_children_ids coll ds).
Qed.

(** ** Query results are sorted *)

Lemma value_leb_total v1 v2 : value_leb v1 v2 = true ∨ value_leb v2 v1 = true.
Proof.
  destruct v1, v2; simpl; auto.
  - apply String.leb_total.
  - destruct (Z.le_ge_cases t t0); [left|right]; by apply Z.leb_le.
Qed.

Lemma value_leb_trans v1 v2 v3 :
  value_leb v1 v2 = true → value_leb v2 v3 = true → value_leb v1 v3 = true.
Proof.
  destruct v1, v2, v3; simpl; try done.
  - rewrite <- !Is_true_true. apply (transitivity (R := String.le)).
  - rewrite !Z.leb_le. lia.
Qed.

#[local] Instance id_le_total : Total id_le.
Proof. intros a b. unfold id_le. apply (total String.le). Qed.

#[local] Instance id_le_trans : Transitive id_le.
Proof. intros a b c. unfold id_le. apply transitivity. Qed.

#[local] Instance field_le_total field : Total (field_le field).
Proof.
  intros a b. unfold field_le, field_leb. simpl.
  destruct (value_leb_total (dict_get a.2 field) (dict_get b.2 field)) as [H|H];
    rewrite H; simpl.
  - destruct (value_leb (dict_get b.2 field) (dict_get a.2 field)); simpl; auto.
    apply String.leb_total.
  - destruct (value_leb (dict_get a.2 field) (dict_get b.2 field)); simpl; auto.
    apply String.leb_total.
Qed.

#[local] Instance field_le_trans field : Transitive (field_le field).
Proof.
  intros a b c. unfold field_le, field_leb. simpl.
  rewrite !andb_true_iff, !orb_true_iff, !negb_true_iff.
  intros [Hab Hab'] [Hbc Hbc']. split; [by eapply value_leb_trans|].
  destruct (value_leb (dict_get c.2 field) (dict_get a.2 field)) eqn:Hca; [right|by left].
  assert (value_leb (dict_get b.2 field) (dict_get a.2 field) = true) as Hba
    by by eapply value_leb_trans.
  assert (value_leb (dict_get c.2 field) (dict_get b.2 field) = true) as Hcb
    by by eapply value_leb_trans.
  destruct Hab' as [?|Hab']; [congruence|].
  destruct Hbc' as [?|Hbc']; [congruence|].
  revert Hab' Hbc'. rewrite <- !Is_true_true. apply (transitivity (R := String.le)).
Qed.

Lemma field_le_value field a b :
  field_le field a b → value_le (dict_get a.2 field) (dict_get b.2 field).
Proof.
  unfold field_le, field_leb, value_le. simpl.
  rewrite andb_true_iff. tauto.
Qed.

Lemma query_all_sorted (coll : path) (ds : gmap path dict) :
  StronglySorted id_le (query_all coll ds).
Proof. apply StronglySorted_merge_sort; apply _. Qed.

Lemma query_order_by_sorted (coll : path) (field : string) (ds : gmap path dict) :
  StronglySorted (field_le field) (query_order_by coll field ds).
Proof. apply StronglySorted_merge_sort; apply _. Qed.

(** A strongly sorted list is ascending at any two positions. *)
Lemma StronglySorted_lookup {A} (R : relation A) (l : list A) i j x y :
  StronglySorted R l → (i < j)%nat → l !! i = Some x → l !! j = Some y → R x y.
Proof.
  intros Hs. revert i j. induction Hs as [|a l Hs IH Hall]; intros i j Hij Hi Hj.
  - done.
  - destruct j as [|j]; [lia|]. simpl in Hj. destruct i as [|i].
    + simpl in Hi. injection Hi as ->.
      rewrite Forall_forall in Hall. apply Hall.
      by eapply list_elem_of_lookup_2.
    + simpl in Hi. apply (IH i j); [lia|done..].
Qed.

Lemma children_nil_query_all (coll : path) (ds : gmap path dict) :
  children coll ds = [] → query_all coll ds = [].
Proof. unfold query_all. by intros ->. Qed.

Lemma children_nil_query_order_by (coll : path) (field : string) (ds : gmap path dict) :
  children coll ds = [] → query_order_by coll field ds = [].
Proof. unfold query_order_by. by intros ->. Qed.

(** ** Running the programs *)

Lemma bind_run {A B} (m : M A) (k : A → M B) (w : world) :
  (x ← m; k x) w =
  match m w with
  | (Ok a, w') => k a w'
  | (Raise e, w') => (Raise e, w')
  end.
Proof. reflexivity. Qed.

Lemma get_run (p : path) (w : world) :
  Client.get p w = (Ok {| reference := p; data := docs (db w) !! p |}, w).
Proof. reflexivity. Qed.

Lemma with_db_id (w : world) : with_db w (db w) = w.
Proof. by destruct w. Qed.

(** [doc_to_dict_with_id] over the snapshots of a query: the fields of
    each document with its id added, and nothing else happens. *)
Lemma snap_id_snapshot_of (coll : path) (e : string * dict) :
  snap_id (snapshot_of coll e) = e.1.
Proof. unfold snap_id, snapshot_of. simpl. by rewrite last_snoc. Qed.

Lemma mapM_doc_to_dict_with_id (coll : path) (l : list (string * dict)) (w : world) :
  mapM App.doc_to_dict_with_id (snapshot_of coll <$> l) w = (Ok (with_id <$> l), w).
Proof.
  induction l as [|e l IH]; [done|].
  rewrite !fmap_cons. cbn [mapM]. unfold bind.
  unfold App.doc_to_dict_with_id at 1. cbn [data snapshot_of].
  unfold ret at 1. rewrite IH.
  unfold ret, with_id. by rewrite snap_id_snapshot_of.
Qed.

(** [_choose] reads one line when there is something to choose from. *)
Lemma choose_run (items : list snapshot) (w : world) (sel : string) (rest : list string) :
  items ≠ [] →
  Main._choose items (feed w (sel :: rest)) = (Ok (pick items sel), feed w rest).
Proof.
  intros Hne. destruct items as [|x items]; [done|].
  unfold Main._choose, pick. rewrite bind_run. cbn [input feed stdin].
  destruct (negb (Py.truthy (Py.strip sel))); [done|].
  by destruct (Py.int (Py.strip sel)).
Qed.

Lemma choose_nil (w : world) : Main._choose [] w = (Ok None, w).
Proof. reflexivity. Qed.

Lemma index_elem_of {A} (items : list A) (i : Z) (x : A) :
  Py.index items i = Some x → x ∈ items.
Proof.
  unfold Py.index. repeat case_match; try done; apply list_elem_of_lookup_2.
Qed.

Lemma pick_elem_of (items : list snapshot) (sel : string) (x : snapshot) :
  pick items sel = Some x → x ∈ items.
Proof.
  unfold pick. repeat case_match; try done. apply index_elem_of.
Qed.

(** What is offered exists in the store, under the path it is offered at. *)
Lemma offered_exists (coll : string) (w : world) (x : snapshot) :
  x ∈ offered coll w →
  ∃ id d, x = snapshot_of [coll] (id, d) ∧ docs (db w) !! [coll; id] = Some d.
Proof.
  unfold offered. intros [[id d] [-> H]]%list_elem_of_fmap.
  apply elem_of_query_order_by in H as [H _]. by exists id, d.
Qed.

Lemma offered_members_exists (club : path) (w : world) (x : snapshot) :
  x ∈ offered_members club w →
  ∃ id d, x = snapshot_of (club ++ ["memberships"]) (id, d) ∧
          docs (db w) !! ((club ++ ["memberships"]) ++ [id]) = Some d.
Proof.
  unfold offered_members. intros [[id d] [-> H]]%list_elem_of_fmap.
  apply elem_of_query_all in H. by exists id, d.
Qed.

(** *** Batches of deletes *)

Lemma foldl_batch_delete (l : list snapshot) (b : list write) :
  foldl (fun b m => Client.batch_delete b (reference m)) b l =
  b ++ (WDelete <$> (reference <$> l)).
Proof.
  revert b. induction l as [|m l IH]; intros b; simpl.
  - by rewrite app_nil_r.
  - rewrite IH. unfold Client.batch_delete. by rewrite <- app_assoc.
Qed.

Lemma apply_writes_deletes (ps : list path) (ds : gmap path dict) :
  apply_writes (WDelete <$> ps) ds = Some (remove_all ps ds).
Proof.
  revert ds. induction ps as [|p ps IH]; intros ds; [done|].
  simpl. apply IH.
Qed.

Lemma lookup_remove_all (ps : list path) (ds : gmap path dict) (q : path) :
  remove_all ps ds !! q = if decide (q ∈ ps) then None else ds !! q.
Proof.
  revert ds. induction ps as [|p ps IH]; intros ds; simpl.
  - by destruct (decide (q ∈ [])) as [?%elem_of_nil|].
  - rewrite IH.
    destruct (decide (q ∈ ps)) as [H1|H1], (decide (q ∈ p :: ps)) as [H2|H2];
      try done.
    + destruct H2. by apply list_elem_of_further.
    + apply elem_of_cons in H2 as [->|?]; [|done]. apply lookup_delete_eq.
    + apply lookup_delete_ne. intros ->. apply H2, list_elem_of_here.
Qed.

Lemma size_remove_all (ps : list path) (ds : gmap path dict) :
  NoDup ps → (∀ p, p ∈ ps → is_Some (ds !! p)) →
  size (remove_all ps ds) + length ps = size ds.
Proof.
  revert ds. induction ps as [|p ps IH]; intros ds Hnd Hin; simpl; [lia|].
  apply NoDup_cons in Hnd as [Hp Hnd].
  destruct (Hin p) as [d Hd]; [apply list_elem_of_here|].
  assert (size (remove_all ps (delete p ds)) + length ps = size (delete p ds)) as IH'.
  { apply IH; [done|]. intros q Hq.
    rewrite lookup_delete_ne by (intros ->; done).
    apply Hin. by apply list_elem_of_further. }
  rewrite (map_size_delete_Some p ds) in IH' by by rewrite Hd.
  pose proof (map_size_ne_0_lookup_2 ds p (ltac:(by rewrite Hd))).
  unfold remove_all in *. lia.
Qed.

(** ** Deleting a club *)

Lemma elem_of_cascade (club : path) (ds : gmap path dict) (p : path) :
  p ∈ cascade club ds ↔
  p = club ∨ ∃ id d, p = (club ++ ["memberships"]) ++ [id] ∧ ds !! p = Some d.
Proof.
  unfold cascade. rewrite elem_of_app, list_elem_of_fmap, list_elem_of_singleton.
  split.
  - intros [[[id d] [-> H]] | ->]; [right|by left].
    apply elem_of_query_all in H. by exists id, d.
  - intros [-> | [id [d [-> H]]]]; [by right|left].
    exists (id, d). split; [done|]. by apply elem_of_query_all.
Qed.

Lemma club_not_membership (club : path) (id : string) :
  club ≠ (club ++ ["memberships"]) ++ [id].
Proof.
  intros H. apply (f_equal length) in H. rewrite !length_app in H.
  simpl in H. lia.
Qed.

Lemma NoDup_cascade (club : path) (ds : gmap path dict) : NoDup (cascade club ds).
Proof.
  unfold cascade. apply NoDup_app. split; [|split].
  - apply (NoDup_fmap_2_strong _).
    + intros [i1 d1] [i2 d2] H1 H2 Heq. simpl in Heq.
      apply app_inv_head in Heq. injection Heq as ->.
      apply elem_of_query_all in H1, H2. congruence.
    + eapply NoDup_fmap_1. apply NoDup_query_all_ids.
  - intros p [[id d] [-> _]]%list_elem_of_fmap Hc.
    apply list_elem_of_singleton in Hc. symmetry in Hc.
    by apply club_not_membership in Hc.
  - apply NoDup_singleton.
Qed.

Lemma cascade_present (club : path) (ds : gmap path dict) (d : dict) (p : path) :
  ds !! club = Some d → p ∈ cascade club ds → is_Some (ds !! p).
Proof.
  intros Hc [-> | [id [dm [-> H]]]]%elem_of_cascade; eauto.
Qed.

Lemma length_cascade (club : path) (ds : gmap path dict) :
  length (cascade club ds) = length (children (club ++ ["memberships"]) ds) + 1.
Proof.
  unfold cascade. rewrite length_app, length_fmap. simpl.
  by rewrite query_all_Permutation.
Qed.

(** The batch either front-end builds for a club. *)
Lemma cascade_batch (club : path) (w : world) :
  Client.batch_delete
    (foldl (fun b m => Client.batch_delete b (reference m)) []
       (snapshot_of (club ++ ["memberships"]) <$>
          query_all (club ++ ["memberships"]) (docs (db w))))
    club
  = WDelete <$> cascade club (docs (db w)).
Proof.
  rewrite foldl_batch_delete. unfold Client.batch_delete, cascade. simpl.
  rewrite fmap_app. simpl. f_equal. f_equal.
  rewrite <- list_fmap_compose. done.
Qed.

Lemma commit_cascade (club : path) (w : world) :
  Client.commit (WDelete <$> cascade club (docs (db w))) w =
  (Ok tt, with_db w {| docs := remove_all (cascade club (docs (db w))) (docs (db w));
                       commits := commits (db w) ++ [WDelete <$> cascade club (docs (db w))] |}).
Proof.
  unfold Client.commit, commit_to. by rewrite apply_writes_deletes.
Qed.

Lemma app_delete_club_run (club_id : string) (w : world) (d : dict) :
  docs (db w) !! ["clubs"; club_id] = Some d →
  App.delete_club club_id w =
  (Ok {| App.flashed := Some ("Club and its memberships deleted successfully!", "success");
         App.body := App.Redirect "clubs" [] |},
   with_db w {| docs := remove_all (cascade ["clubs"; club_id] (docs (db w))) (docs (db w));
                commits := commits (db w) ++ [WDelete <$> cascade ["clubs"; club_id] (docs (db w))] |}).
Proof.
  intros Hd. unfold App.delete_club.
  rewrite bind_run, get_run. unfold snap_exists. cbn [data reference]. rewrite Hd.
  rewrite !bind_run. unfold Client.stream at 1.
  rewrite (cascade_batch ["clubs"; club_id] w), bind_run, commit_cascade.
  reflexivity.
Qed.

Lemma pick_nonempty (items : list snapshot) (sel : string) (x : snapshot) :
  pick items sel = Some x → items ≠ [].
Proof. intros H%pick_elem_of ->. by apply elem_of_nil in H. Qed.

Lemma main_delete_club_run (w : world) (sel confirm : string)
    (rest : list string) (chosen : snapshot) :
  pick (offered "clubs" w) sel = Some chosen →
  Py.strip confirm = "DELETE" →
  Main.delete_club (feed w (sel :: confirm :: rest)) =
  (Ok Main.Deleted,
   feed (with_db w
     {| docs := remove_all (cascade (reference chosen) (docs (db w))) (docs (db w));
        commits := commits (db w) ++ [WDelete <$> cascade (reference chosen) (docs (db w))] |})
     rest).
Proof.
  intros Hpick Hconfirm. unfold Main.delete_club.
  rewrite bind_run. unfold Client.order_by_stream at 1. cbn [feed db].
  fold (offered "clubs" w).
  rewrite bind_run, choose_run by by eapply pick_nonempty.
  rewrite Hpick, bind_run. cbn [input feed stdin db clock auto_ids issued].
  rewrite Hconfirm. rewrite decide_True by done.
  rewrite bind_run. unfold Client.stream at 1. cbn [db].
  rewrite (cascade_batch (reference chosen) w), bind_run.
  unfold Client.commit, commit_to. cbn [db docs commits].
  by rewrite apply_writes_deletes.
Qed.

(** C1.  Deleting an existing club, through the web handler or through
    the terminal action once the club is chosen and the deletion confirmed,
    sends the store one commit and no other.  With N memberships under the
    club that commit holds N+1 deletes, of N+1 different documents that are
    all in the store: each membership and the club.  The store afterwards
    has exactly N+1 documents fewer, and every other document is as it
    was. *)
Theorem delete_club_single_batch (w : world) (club_id : string) (d : dict) :
  docs (db w) !! ["clubs"; club_id] = Some d →
  let ds := docs (db w) in
  let club := ["clubs"; club_id] in
  let N := length (children (club ++ ["memberships"]) ds) in
  let removed := cascade club ds in
  let after := {| docs := remove_all removed ds;
                  commits := commits (db w) ++ [WDelete <$> removed] |} in
  App.delete_club club_id w =
    (Ok {| App.flashed := Some ("Club and its memberships deleted successfully!", "success");
           App.body := App.Redirect "clubs" [] |},
     with_db w after)
  ∧ (∀ sel confirm rest,
       pick (offered "clubs" w) sel = Some (snapshot_of ["clubs"] (club_id, d)) →
       Py.strip confirm = "DELETE" →
       Main.delete_club (feed w (sel :: confirm :: rest)) =
         (Ok Main.Deleted, feed (with_db w after) rest))
  ∧ length removed = N + 1
  ∧ NoDup removed
  ∧ (∀ p, p ∈ removed ↔
          p = club ∨ ∃ id dm, p = club ++ ["memberships"; id] ∧ ds !! p = Some dm)
  ∧ size (remove_all removed ds) + (N + 1) = size ds
  ∧ (∀ p, remove_all removed ds !! p = if decide (p ∈ removed) then None else ds !! p).
Proof.
  intros Hd ds club N removed after. repeat split.
  - by apply (app_delete_club_run club_id w d).
  - intros sel confirm rest Hpick Hconfirm.
    by rewrite (main_delete_club_run w sel confirm rest _ Hpick Hconfirm).
  - apply length_cascade.
  - apply NoDup_cascade.
  - intros Hp. apply elem_of_cascade in Hp as [-> | (id & dm & -> & H)]; [by left|right].
    exists id, dm. split; [|done]. unfold club. by rewrite <- app_assoc.
  - intros [-> | (id & dm & -> & H)]; apply elem_of_cascade; [by left|right].
    exists id, dm. unfold club in *. by rewrite <- app_assoc.
  - unfold N. rewrite <- length_cascade. apply size_remove_all.
    + apply NoDup_cascade.
    + intros p Hp. by eapply cascade_present.
  - apply lookup_remove_all.
Qed.

Lemma delete_club_single_batch_witness :
  docs (db sample_world) !! ["clubs"; "c1"] = Some sample_club
  ∧ commits (db (App.delete_club "c1" sample_world).2) =
      [[WDelete ["clubs"; "c1"; "memberships"; "m1"];
        WDelete ["clubs"; "c1"; "memberships"; "m2"];
        WDelete ["clubs"; "c1"]]]
  ∧ size (docs (db (App.delete_club "c1" sample_world).2)) + 3 = size sample_docs
  ∧ db (Main.delete_club (feed sample_world ["1"; " DELETE "])).2
    = db (App.delete_club "c1" sample_world).2.
Proof.
  assert (docs (db sample_world) !! ["clubs"; "c1"] = Some sample_club) as Hd
    by (vm_compute; reflexivity).
  assert (pick (offered "clubs" sample_world) "1" =
            Some (snapshot_of ["clubs"] ("c1", sample_club))) as Hpick
    by (vm_compute; reflexivity).
  split; [exact Hd|].
  destruct (delete_club_single_batch sample_world "c1" sample_club Hd)
    as (Hweb & Hterm & _).
  rewrite Hweb, (Hterm "1" " DELETE " [] Hpick eq_refl).
  split; [|split]; [vm_compute; reflexivity..|reflexivity].
Defined.

(** ** Creating documents *)

Lemma form_get_run (r : App.request) (k v : string) (w : world) :
  App.form r !! k = Some v → App.form_get r k w = (Ok v, w).
Proof. unfold App.form_get. by intros ->. Qed.

(** The web handlers turn down a blank name before anything reaches the
    store. *)
Lemma app_create_university_blank (r : App.request) (name domain : string) (w : world) :
  App.method r = App.POST →
  App.form r !! "name" = Some name → App.form r !! "domain" = Some domain →
  Py.strip name = EmptyString →
  App.create_university r w =
    (Ok {| App.flashed := Some ("University name is required", "error");
           App.body := App.Render "create_university.html" [] |}, w).
Proof.
  intros Hm Hn Hd Hb. unfold App.create_university. rewrite Hm.
  rewrite bind_run, (form_get_run r _ _ w Hn).
  rewrite bind_run, (form_get_run r _ _ w Hd).
  by rewrite Hb.
Qed.

Lemma app_create_person_blank (r : App.request) (name email sid : string) (w : world) :
  App.method r = App.POST →
  App.form r !! "name" = Some name → App.form r !! "email" = Some email →
  App.form r !! "studentId" = Some sid →
  Py.strip name = EmptyString →
  App.create_person r w =
    (Ok {| App.flashed := Some ("Person name is required", "error");
           App.body := App.Render "create_person.html" [] |}, w).
Proof.
  intros Hm Hn He Hs Hb. unfold App.create_person. rewrite Hm.
  rewrite bind_run, (form_get_run r _ _ w Hn).
  rewrite bind_run, (form_get_run r _ _ w He).
  rewrite bind_run, (form_get_run r _ _ w Hs).
  by rewrite Hb.
Qed.

Lemma app_create_club_blank (r : App.request) (name uid descr : string) (w : world) :
  App.method r = App.POST →
  App.form r !! "name" = Some name → App.form r !! "universityId" = Some uid →
  App.form r !! "description" = Some descr →
  Py.strip name = EmptyString →
  App.create_club r w =
    (Ok {| App.flashed := Some ("Club name and university are required", "error");
           App.body := App.Render "create_club.html"
             [("universities", with_id <$> query_order_by ["universities"] "name" (docs (db w)))] |},
     w).
Proof.
  intros Hm Hn Hu Hd Hb. unfold App.create_club. rewrite Hm.
  rewrite bind_run, (form_get_run r _ _ w Hn).
  rewrite bind_run, (form_get_run r _ _ w Hu).
  rewrite bind_run, (form_get_run r _ _ w Hd).
  rewrite Hb. cbn [Py.truthy negb orb].
  rewrite bind_run. unfold Client.order_by_stream at 1.
  by rewrite bind_run, mapM_doc_to_dict_with_id.
Qed.

(** C2.  The terminal actions do not look at the name they read: a name
    that is blank once stripped is stored as the empty string.
    [create_university] and [create_person] each send one [set] to the
    store and report the new id. *)
Theorem terminal_create_stores_blank_name
    (cls : Main.class_defaults) (w : world) (name a b : string)
    (rest : list string) :
  Py.strip name = EmptyString →
  let id := auto_ids w (issued w) in
  let stored (coll : string) (d : dict) :=
    {| db := {| docs := <[ [coll; id] := d ]> (docs (db w));
                commits := commits (db w) ++ [[WSet [coll; id] d]] |};
       clock := clock w; stdin := rest;
       auto_ids := auto_ids w; issued := S (issued w) |} in
  Main.create_university cls (feed w (name :: a :: rest)) =
    (Ok (Main.Created id),
     stored "universities"
       (list_to_map [("name", VStr EmptyString);
                     ("domain", of_option (Py.or_None (Py.strip a)));
                     ("createdAt", VTime (Main.University_createdAt cls))]))
  ∧ Main.create_person cls (feed w (name :: a :: b :: rest)) =
    (Ok (Main.Created id),
     stored "people"
       (list_to_map [("name", VStr EmptyString);
                     ("email", of_option (Py.or_None (Py.strip a)));
                     ("studentId", of_option (Py.or_None (Py.strip b)));
                     ("createdAt", VTime (Main.Person_createdAt cls))])).
Proof.
  intros Hb id stored. split.
  - unfold Main.create_university.
    rewrite bind_run. cbn [input feed stdin db clock auto_ids issued].
    rewrite bind_run. cbn [input feed stdin db clock auto_ids issued].
    rewrite Hb. reflexivity.
  - unfold Main.create_person.
    do 3 (rewrite bind_run; cbn [input feed stdin db clock auto_ids issued]).
    rewrite Hb. reflexivity.
Qed.

Lemma terminal_create_stores_blank_name_witness :
  Py.strip "   " = EmptyString
  ∧ (Main.create_university sample_classes (feed sample_world ["   "; "uta.edu"])).1
    = Ok (Main.Created "q7")
  ∧ docs (db (Main.create_university sample_classes
                (feed sample_world ["   "; "uta.edu"])).2) !! ["universities"; "q7"]
    = Some (list_to_map [("name", VStr EmptyString); ("domain", VStr "uta.edu");
                         ("createdAt", VTime 100)]).
Proof.
  assert (Py.strip "   " = EmptyString) as Hb by reflexivity.
  split; [exact Hb|].
  destruct (terminal_create_stores_blank_name sample_classes sample_world
              "   " "uta.edu" EmptyString [] Hb) as [Hu _].
  rewrite Hu. split; vm_compute; reflexivity.
Defined.

Lemma app_add_member_no_club (club_id : string) (request : App.request) (w : world) :
  docs (db w) !! ["clubs"; club_id] = None →
  App.add_member club_id request w =
    (Ok {| App.flashed := Some ("Club not found", "error");
           App.body := App.Redirect "clubs" [] |}, w).
Proof.
  intros Hnone. unfold App.add_member.
  rewrite bind_run, get_run. unfold snap_exists. cbn [data].
  by rewrite Hnone.
Qed.

(** A membership written by [add_member] lies under a club that is in the
    store. *)
Lemma add_member_writes_under_existing_club
    (club_id : string) (request : App.request) (w : world) :
  db (App.add_member club_id request w).2 ≠ db w →
  is_Some (docs (db w) !! ["clubs"; club_id]).
Proof.
  intros Hchanged. destruct (docs (db w) !! ["clubs"; club_id]) eqn:E; [by eexists|].
  by rewrite (app_add_member_no_club club_id request w E) in Hchanged.
Qed.



(** ** Default [createdAt] *)

(** The web data classes read the clock when they are constructed. *)
Lemma app_createdAt_is_construction_time (w : world) :
  (∀ name domain,
     App.University.init name domain None w =
       (Ok {| App.University.name := name; App.University.domain := domain;
              App.University.createdAt := clock w |}, w))
  ∧ (∀ name uid descr,
     App.Club.init name uid descr None w =
       (Ok {| App.Club.name := name; App.Club.universityId := uid;
              App.Club.description := descr; App.Club.createdAt := clock w |}, w))
  ∧ (∀ name email sid,
     App.Person.init name email sid None w =
       (Ok {| App.Person.name := name; App.Person.email := email;
              App.Person.studentId := sid; App.Person.createdAt := clock w |}, w))
  ∧ (∀ pid role status title,
     App.Membership.init pid role status title None w =
       (Ok {| App.Membership.personId := pid; App.Membership.role := role;
              App.Membership.status := status; App.Membership.title := title;
              App.Membership.createdAt := clock w |}, w)).
Proof. repeat split. Qed.

Lemma load_classes_run (w0 : world) :
  Main.load_classes w0 =
    (Ok {| Main.University_createdAt := clock w0; Main.Club_createdAt := clock w0;
           Main.Person_createdAt := clock w0; Main.Membership_createdAt := clock w0 |},
     w0).
Proof. reflexivity. Qed.

(** C5.  In the terminal program the default of [createdAt] is the time
    at which the classes were defined, when the program started at [w0]:
    an entity constructed later, at any world [w], without a [createdAt]
    gets the start time and not the time of [w].  So does the document
    [create_university] stores. *)
Theorem terminal_createdAt_is_load_time
    (w0 w : world) (cls : Main.class_defaults) (name domain : string)
    (rest : list string) :
  (Main.load_classes w0).1 = Ok cls →
  Main.University.createdAt (Main.University.init cls name None None) = clock w0
  ∧ Main.Club.createdAt (Main.Club.init cls name domain None None) = clock w0
  ∧ Main.Person.createdAt (Main.Person.init cls name None None None) = clock w0
  ∧ Main.Membership.createdAt (Main.Membership.init cls name "member" "active" None None)
    = clock w0
  ∧ ∃ d, docs (db (Main.create_university cls (feed w (name :: domain :: rest))).2)
           !! ["universities"; auto_ids w (issued w)] = Some d
         ∧ d !! "createdAt" = Some (VTime (clock w0)).
Proof.
  rewrite load_classes_run. cbn [fst]. intros [= <-].
  repeat split.
  eexists. split.
  - unfold Main.create_university.
    do 2 (rewrite bind_run; cbn [input feed stdin db clock auto_ids issued]).
    cbn. apply lookup_insert_eq.
  - reflexivity.
Qed.

Lemma terminal_createdAt_is_load_time_witness :
  (Main.load_classes (at_time 100 sample_world)).1 = Ok sample_classes
  ∧ Main.University.createdAt
      (Main.University.init sample_classes "UTD" None None) = 100%Z
  ∧ clock (at_time 200 sample_world) = 200%Z
  ∧ docs (db (Main.create_university sample_classes
                (feed (at_time 200 sample_world) ["UTD"; "utd.edu"])).2)
      !! ["universities"; "q7"]
    = Some (list_to_map [("name", VStr "UTD"); ("domain", VStr "utd.edu");
                         ("createdAt", VTime 100)]).
Proof.
  assert ((Main.load_classes (at_time 100 sample_world)).1 = Ok sample_classes) as Hl
    by reflexivity.
  split; [exact Hl|].
  destruct (terminal_createdAt_is_load_time (at_time 100 sample_world)
              (at_time 200 sample_world) sample_classes "UTD" "utd.edu" [] Hl)
    as (Hu & _).
  split; [exact Hu|]. split; vm_compute; reflexivity.
Defined.

(** ** Listings and dangling references *)


Lemma subscript_with_id (e : string * dict) (k : string) (v : value) (w : world) :
  k ≠ "id" → e.2 !! k = Some v → subscript (with_id e) k w = (Ok v, w).
Proof.
  intros Hk Hv. unfold subscript, with_id.
  rewrite lookup_insert_ne by done. by rewrite Hv.
Qed.

(** An id without "/" is one segment of a path. *)
Lemma split_no_slash (id : string) :
  forallb (fun a => negb (Ascii.eqb a "/"%char)) (String.list_ascii_of_string id) = true →
  Py.split "/"%char id = [id].
Proof.
  induction id as [|a id IH]; [done|]. simpl.
  intros [Ha Hid]%andb_true_iff. apply negb_true_iff in Ha. rewrite Ha.
  by rewrite (IH Hid).
Qed.

Lemma valid_id_split (id : string) :
  valid_id id = true → Py.split "/"%char id = [id].
Proof.
  unfold valid_id. rewrite !andb_true_iff. intros [[[[_ H] _] _] _].
  by apply split_no_slash.
Qed.

(** A reference to a document of a top-level collection. *)
Lemma document_of_valid (coll id : string) (w : world) :
  valid_id id = true →
  Client.document_of [coll] (VStr id) w = (Ok [coll; id], w).
Proof.
  intros Hid. unfold Client.document_of. by rewrite (valid_id_split id Hid).
Qed.

(** An id that splits into an even number of segments makes no document
    of a top-level collection: "a/b" does not. *)
Lemma document_of_slash (coll id : string) (w : world) :
  Nat.even (length (Py.split "/"%char id)) = true →
  Client.document_of [coll] (VStr id) w = (Raise ValueError, w).
Proof.
  intros Hid. unfold Client.document_of. cbn [app length].
  rewrite Nat.even_succ, <- Nat.negb_even, Hid. reflexivity.
Qed.



(** A row whose reference holds a "/" that leaves an odd number of
    segments stops the listing with [ValueError]. *)
Lemma club_row_slash (e : string * dict) (u : string) (w : world) :
  e.2 !! "universityId" = Some (VStr u) →
  Nat.even (length (Py.split "/"%char u)) = true →
  App.club_row (snapshot_of ["clubs"] e) w = (Raise ValueError, w).
Proof.
  intros Hu Hslash. unfold App.club_row, App.doc_to_dict_with_id. cbn [data snapshot_of].
  rewrite bind_run. unfold mret, M_ret. unfold ret at 1.
  rewrite snap_id_snapshot_of. fold (with_id e).
  rewrite bind_run, (subscript_with_id e "universityId" (VStr u) w ltac:(done) Hu).
  by rewrite bind_run, (document_of_slash "universities" u w Hslash).
Qed.

Lemma member_row_slash (coll : path) (e : string * dict) (p : string) (w : world) :
  e.2 !! "personId" = Some (VStr p) →
  Nat.even (length (Py.split "/"%char p)) = true →
  App.member_row (snapshot_of coll e) w = (Raise ValueError, w).
Proof.
  intros Hp Hslash. unfold App.member_row, App.doc_to_dict_with_id. cbn [data snapshot_of].
  rewrite bind_run. unfold mret, M_ret. unfold ret at 1.
  rewrite snap_id_snapshot_of. fold (with_id e).
  rewrite bind_run, (subscript_with_id e "personId" (VStr p) w ltac:(done) Hp).
  by rewrite bind_run, (document_of_slash "people" p w Hslash).
Qed.

(** The terminal query does not survive a membership whose person is
    gone: [to_dict()] of the missing snapshot is [None]. *)
Lemma member_line_stale (coll : path) (e : string * dict) (p : string) (w : world) :
  e.2 !! "personId" = Some (VStr p) →
  valid_id p = true →
  docs (db w) !! ["people"; p] = None →
  Main.member_line (snapshot_of coll e) w = (Raise AttributeError, w).
Proof.
  intros Hp Hvalid Hnone. unfold Main.member_line, Main.to_dict. cbn [data snapshot_of].
  rewrite bind_run. unfold mret, M_ret. unfold ret at 1.
  rewrite bind_run. unfold subscript. rewrite Hp. unfold ret at 1.
  rewrite bind_run, (document_of_valid "people" p w Hvalid).
  rewrite bind_run, get_run, bind_run. cbn [data app]. rewrite Hnone. reflexivity.
Qed.




(** On the same store the terminal query stops with an exception at that
    membership. *)
Lemma terminal_list_club_members_stale :
  (Main.list_club_members "c1" sample_world).1 = Raise AttributeError.
Proof. vm_compute. reflexivity. Qed.

(** ** Deleting a person or a university *)

Lemma children_ext (coll : path) (ds1 ds2 : gmap path dict) :
  (∀ id, ds1 !! (coll ++ [id]) = ds2 !! (coll ++ [id])) →
  children coll ds1 ≡ₚ children coll ds2.
Proof.
  intros Hext. apply NoDup_Permutation.
  - eapply NoDup_fmap_1, NoDup_children_ids.
  - eapply NoDup_fmap_1, NoDup_children_ids.
  - intros [id d]. by rewrite !elem_of_children, Hext.
Qed.

(** A listing depends on the documents of its collection only. *)
Lemma query_all_ext (coll : path) (ds1 ds2 : gmap path dict) :
  (∀ id, ds1 !! (coll ++ [id]) = ds2 !! (coll ++ [id])) →
  query_all coll ds1 = query_all coll ds2.
Proof.
  intros Hext. apply (StronglySorted_unique_strong id_le).
  - intros [i1 d1] [i2 d2] H1 H2 Hle1 Hle2.
    apply elem_of_query_all in H1, H2. unfold id_le in *. simpl in *.
    assert (i1 = i2) as -> by by apply (anti_symm String.le).
    rewrite Hext in H1. congruence.
  - apply query_all_sorted.
  - apply query_all_sorted.
  - rewrite !query_all_Permutation. by apply children_ext.
Qed.

Lemma field_le_antisym_id (field : string) (a b : string * dict) :
  field_le field a b → field_le field b a → a.1 = b.1.
Proof.
  unfold field_le, field_leb. simpl.
  rewrite !andb_true_iff, !orb_true_iff, !negb_true_iff.
  intros [Hab [?|H1]] [Hba [?|H2]]; try congruence.
  by apply String.leb_antisym.
Qed.

Lemma query_order_by_ext (coll : path) (field : string) (ds1 ds2 : gmap path dict) :
  (∀ id, ds1 !! (coll ++ [id]) = ds2 !! (coll ++ [id])) →
  query_order_by coll field ds1 = query_order_by coll field ds2.
Proof.
  intros Hext. apply (StronglySorted_unique_strong (field_le field)).
  - intros [i1 d1] [i2 d2] H1 H2 Hle1 Hle2.
    apply elem_of_query_order_by in H1 as [H1 _], H2 as [H2 _].
    pose proof (field_le_antisym_id _ _ _ Hle1 Hle2) as Hi. simpl in Hi. subst i2.
    rewrite Hext in H1. congruence.
  - apply query_order_by_sorted.
  - apply query_order_by_sorted.
  - unfold query_order_by. rewrite !merge_sort_Permutation.
    by rewrite (children_ext coll ds1 ds2).
Qed.

Lemma commit_delete (p : path) (w : world) :
  Client.delete p w =
  (Ok tt, with_db w {| docs := delete p (docs (db w));
                       commits := commits (db w) ++ [[WDelete p]] |}).
Proof. reflexivity. Qed.

Lemma app_delete_person_run (id : string) (d : dict) (w : world) :
  docs (db w) !! ["people"; id] = Some d →
  App.delete_person id w =
  (Ok {| App.flashed := Some ("Person deleted successfully!", "success");
         App.body := App.Redirect "people" [] |},
   with_db w {| docs := delete ["people"; id] (docs (db w));
                commits := commits (db w) ++ [[WDelete ["people"; id]]] |}).
Proof.
  intros Hd. unfold App.delete_person.
  rewrite bind_run, get_run. unfold snap_exists. cbn [data reference].
  by rewrite Hd.
Qed.

Lemma app_delete_university_run (id : string) (d : dict) (w : world) :
  docs (db w) !! ["universities"; id] = Some d →
  App.delete_university id w =
  (Ok {| App.flashed := Some ("University deleted successfully!", "success");
         App.body := App.Redirect "universities" [] |},
   with_db w {| docs := delete ["universities"; id] (docs (db w));
                commits := commits (db w) ++ [[WDelete ["universities"; id]]] |}).
Proof.
  intros Hd. unfold App.delete_university.
  rewrite bind_run, get_run. unfold snap_exists. cbn [data reference].
  by rewrite Hd.
Qed.

Lemma main_delete_person_run (w : world) (sel confirm : string)
    (rest : list string) (chosen : snapshot) :
  pick (offered "people" w) sel = Some chosen →
  Py.strip confirm = "DELETE" →
  Main.delete_person (feed w (sel :: confirm :: rest)) =
  (Ok Main.Deleted,
   feed (with_db w {| docs := delete (reference chosen) (docs (db w));
                      commits := commits (db w) ++ [[WDelete (reference chosen)]] |})
     rest).
Proof.
  intros Hpick Hconfirm. unfold Main.delete_person.
  rewrite bind_run. unfold Client.order_by_stream at 1. cbn [feed db].
  fold (offered "people" w).
  rewrite bind_run, choose_run by by eapply pick_nonempty.
  rewrite Hpick, bind_run. cbn [input feed stdin db clock auto_ids issued].
  rewrite Hconfirm. by rewrite decide_True by done.
Qed.

Lemma main_delete_university_run (w : world) (sel confirm : string)
    (rest : list string) (chosen : snapshot) :
  pick (offered "universities" w) sel = Some chosen →
  Py.strip confirm = "DELETE" →
  Main.delete_university (feed w (sel :: confirm :: rest)) =
  (Ok Main.Deleted,
   feed (with_db w {| docs := delete (reference chosen) (docs (db w));
                      commits := commits (db w) ++ [[WDelete (reference chosen)]] |})
     rest).
Proof.
  intros Hpick Hconfirm. unfold Main.delete_university.
  rewrite bind_run. unfold Client.order_by_stream at 1. cbn [feed db].
  fold (offered "universities" w).
  rewrite bind_run, choose_run by by eapply pick_nonempty.
  rewrite Hpick, bind_run. cbn [input feed stdin db clock auto_ids issued].
  rewrite Hconfirm. by rewrite decide_True by done.
Qed.

(** C7.  Deleting a person that is in the store, from the web handler or
    from the terminal action once chosen and confirmed, sends one commit
    with one delete, of that person.  Every other document is as before,
    and so is the membership listing of every club.  Deleting a university
    that is in the store likewise removes the university alone; the
    listing of clubs ordered by name is the same before and after.  Each
    half asks only for the document it deletes. *)
Theorem delete_person_or_university_no_cascade (w : world) :
  let ds := docs (db w) in
  let gone (p : path) :=
    {| docs := delete p ds; commits := commits (db w) ++ [[WDelete p]] |} in
  (∀ (pid : string) (person : dict),
     ds !! ["people"; pid] = Some person →
     App.delete_person pid w =
       (Ok {| App.flashed := Some ("Person deleted successfully!", "success");
              App.body := App.Redirect "people" [] |},
        with_db w (gone ["people"; pid]))
     ∧ (∀ sel confirm rest,
          pick (offered "people" w) sel = Some (snapshot_of ["people"] (pid, person)) →
          Py.strip confirm = "DELETE" →
          Main.delete_person (feed w (sel :: confirm :: rest)) =
            (Ok Main.Deleted, feed (with_db w (gone ["people"; pid])) rest))
     ∧ (∀ q, q ≠ ["people"; pid] → delete ["people"; pid] ds !! q = ds !! q)
     ∧ (∀ club_id,
          query_all ["clubs"; club_id; "memberships"] (delete ["people"; pid] ds) =
          query_all ["clubs"; club_id; "memberships"] ds))
  ∧ (∀ (uid : string) (university : dict),
     ds !! ["universities"; uid] = Some university →
     App.delete_university uid w =
       (Ok {| App.flashed := Some ("University deleted successfully!", "success");
              App.body := App.Redirect "universities" [] |},
        with_db w (gone ["universities"; uid]))
     ∧ (∀ sel confirm rest,
          pick (offered "universities" w) sel =
            Some (snapshot_of ["universities"] (uid, university)) →
          Py.strip confirm = "DELETE" →
          Main.delete_university (feed w (sel :: confirm :: rest)) =
            (Ok Main.Deleted, feed (with_db w (gone ["universities"; uid])) rest))
     ∧ (∀ q, q ≠ ["universities"; uid] →
             delete ["universities"; uid] ds !! q = ds !! q)
     ∧ query_order_by ["clubs"] "name" (delete ["universities"; uid] ds) =
       query_order_by ["clubs"] "name" ds).
Proof.
  intros ds gone. split.
  - intros pid person Hp. repeat split.
    + by apply (app_delete_person_run pid person).
    + intros sel confirm rest Hpick Hconfirm.
      by rewrite (main_delete_person_run w sel confirm rest _ Hpick Hconfirm).
    + intros q Hq. by apply lookup_delete_ne.
    + intros club_id. apply query_all_ext. intros id. by apply lookup_delete_ne.
  - intros uid university Hu. repeat split.
    + by apply (app_delete_university_run uid university).
    + intros sel confirm rest Hpick Hconfirm.
      by rewrite (main_delete_university_run w sel confirm rest _ Hpick Hconfirm).
    + intros q Hq. by apply lookup_delete_ne.
    + apply query_order_by_ext. intros id. by apply lookup_delete_ne.
Qed.

(** The person is deleted from a store that holds no university, and the
    university from a store that holds no person. *)
Lemma delete_person_or_university_no_cascade_witness :
  (docs (db no_university_world) !! ["people"; "p1"] = Some sample_person
   ∧ query_order_by ["universities"] "name" (docs (db no_university_world)) = []
   ∧ docs (db (App.delete_person "p1" no_university_world).2)
       !! ["clubs"; "c1"; "memberships"; "m1"] = Some sample_member
   ∧ db (Main.delete_person (feed no_university_world ["1"; "DELETE"])).2
     = db (App.delete_person "p1" no_university_world).2)
  ∧ (docs (db no_person_world) !! ["universities"; "u1"] = Some sample_university
     ∧ query_order_by ["people"] "name" (docs (db no_person_world)) = []
     ∧ docs (db (App.delete_university "u1" no_person_world).2) !! ["clubs"; "c1"]
       = Some sample_club
     ∧ db (Main.delete_university (feed no_person_world ["1"; "DELETE"])).2
       = db (App.delete_university "u1" no_person_world).2
     ∧ (fun row => (row !! "name", row !! "universityName")) <$>
         context_of (App.clubs (App.delete_university "u1" no_person_world).2).1 "clubs"
       = [(Some (VStr "Chess Club"), Some (VStr "Unknown"))]).
Proof.
  assert (docs (db no_university_world) !! ["people"; "p1"] = Some sample_person)
    as Hp by (vm_compute; reflexivity).
  assert (docs (db no_person_world) !! ["universities"; "u1"] = Some sample_university)
    as Hu by (vm_compute; reflexivity).
  assert (pick (offered "people" no_university_world) "1" =
            Some (snapshot_of ["people"] ("p1", sample_person))) as Hpick
    by (vm_compute; reflexivity).
  assert (pick (offered "universities" no_person_world) "1" =
            Some (snapshot_of ["universities"] ("u1", sample_university))) as Hpick'
    by (vm_compute; reflexivity).
  split.
  - destruct (proj1 (delete_person_or_university_no_cascade no_university_world)
                "p1" sample_person Hp) as (Hdp & Hterm & Hother & _).
    split; [exact Hp|]. split; [vm_compute; reflexivity|].
    rewrite Hdp, (Hterm "1" "DELETE" [] Hpick eq_refl).
    cbn [snd with_db db docs feed].
    rewrite Hother by done. split; [vm_compute; reflexivity|reflexivity].
  - destruct (proj2 (delete_person_or_university_no_cascade no_person_world)
                "u1" sample_university Hu) as (Hdu & Hterm & Hother & _).
    split; [exact Hu|]. split; [vm_compute; reflexivity|].
    rewrite Hdu, (Hterm "1" "DELETE" [] Hpick' eq_refl).
    cbn [snd with_db db docs feed].
    rewrite Hother by done.
    split; [vm_compute; reflexivity|]. split; [reflexivity|vm_compute; reflexivity].
Defined.

(** ** Updating through the terminal *)

Lemma commit_update (p : path) (old fields : dict) (w : world) :
  docs (db w) !! p = Some old →
  Client.update p fields w = (Ok tt, with_db w (updated (db w) p old fields)).
Proof.
  intros Hold. unfold Client.update, Client.commit, commit_to. simpl.
  by rewrite Hold.
Qed.

Lemma main_update_university_run (w : world) (sel a1 a2 : string)
    (rest : list string) (id : string) (old : dict) :
  pick (offered "universities" w) sel = Some (snapshot_of ["universities"] (id, old)) →
  Main.update_university (feed w (sel :: a1 :: a2 :: rest)) =
  (Ok Main.Updated,
   feed (with_db w (updated (db w) ["universities"; id] old
                      (keep_or_replace old [("name", a1); ("domain", a2)]))) rest).
Proof.
  intros Hpick.
  destruct (offered_exists _ _ _ (pick_elem_of _ _ _ Hpick)) as (id' & d' & Heq & Hd).
  injection Heq as <- <-.
  unfold Main.update_university.
  rewrite bind_run. unfold Client.order_by_stream at 1. cbn [feed db].
  fold (offered "universities" w).
  rewrite bind_run, choose_run by by eapply pick_nonempty.
  rewrite Hpick, bind_run. unfold Main.to_dict. cbn [data snapshot_of].
  unfold mret, M_ret. unfold ret at 1.
  do 2 (rewrite bind_run; cbn [input feed stdin db clock auto_ids issued]).
  rewrite bind_run.
  erewrite (commit_update _ old) by exact Hd.
  reflexivity.
Qed.

Lemma main_update_club_run (w : world) (sel a1 a2 : string)
    (rest : list string) (id : string) (old : dict) :
  pick (offered "clubs" w) sel = Some (snapshot_of ["clubs"] (id, old)) →
  Main.update_club (feed w (sel :: a1 :: a2 :: rest)) =
  (Ok Main.Updated,
   feed (with_db w (updated (db w) ["clubs"; id] old
                      (keep_or_replace old [("name", a1); ("description", a2)]))) rest).
Proof.
  intros Hpick.
  destruct (offered_exists _ _ _ (pick_elem_of _ _ _ Hpick)) as (id' & d' & Heq & Hd).
  injection Heq as <- <-.
  unfold Main.update_club.
  rewrite bind_run. unfold Client.order_by_stream at 1. cbn [feed db].
  fold (offered "clubs" w).
  rewrite bind_run, choose_run by by eapply pick_nonempty.
  rewrite Hpick, bind_run. unfold Main.to_dict. cbn [data snapshot_of].
  unfold mret, M_ret. unfold ret at 1.
  do 2 (rewrite bind_run; cbn [input feed stdin db clock auto_ids issued]).
  rewrite bind_run.
  erewrite (commit_update _ old) by exact Hd.
  reflexivity.
Qed.

Lemma main_update_person_run (w : world) (sel a1 a2 a3 : string)
    (rest : list string) (id : string) (old : dict) :
  pick (offered "people" w) sel = Some (snapshot_of ["people"] (id, old)) →
  Main.update_person (feed w (sel :: a1 :: a2 :: a3 :: rest)) =
  (Ok Main.Updated,
   feed (with_db w (updated (db w) ["people"; id] old
                      (keep_or_replace old
                         [("name", a1); ("email", a2); ("studentId", a3)]))) rest).
Proof.
  intros Hpick.
  destruct (offered_exists _ _ _ (pick_elem_of _ _ _ Hpick)) as (id' & d' & Heq & Hd).
  injection Heq as <- <-.
  unfold Main.update_person.
  rewrite bind_run. unfold Client.order_by_stream at 1. cbn [feed db].
  fold (offered "people" w).
  rewrite bind_run, choose_run by by eapply pick_nonempty.
  rewrite Hpick, bind_run. unfold Main.to_dict. cbn [data snapshot_of].
  unfold mret, M_ret. unfold ret at 1.
  do 3 (rewrite bind_run; cbn [input feed stdin db clock auto_ids issued]).
  rewrite bind_run.
  erewrite (commit_update _ old) by exact Hd.
  reflexivity.
Qed.

Lemma main_update_membership_run (w : world) (s1 s2 a1 a2 a3 : string)
    (rest : list string) (club_id : string) (club : dict) (id : string) (old : dict) :
  pick (offered "clubs" w) s1 = Some (snapshot_of ["clubs"] (club_id, club)) →
  pick (offered_members ["clubs"; club_id] w) s2 =
    Some (snapshot_of ["clubs"; club_id; "memberships"] (id, old)) →
  Main.update_membership (feed w (s1 :: s2 :: a1 :: a2 :: a3 :: rest)) =
  (Ok Main.Updated,
   feed (with_db w (updated (db w) ["clubs"; club_id; "memberships"; id] old
                      (keep_or_replace old
                         [("role", a1); ("status", a2); ("title", a3)]))) rest).
Proof.
  intros Hclub Hpick.
  destruct (offered_members_exists _ _ _ (pick_elem_of _ _ _ Hpick))
    as (id' & d' & Heq & Hd).
  injection Heq as <- <-.
  unfold Main.update_membership.
  rewrite bind_run. unfold Client.order_by_stream at 1. cbn [feed db].
  fold (offered "clubs" w).
  rewrite bind_run, choose_run by by eapply pick_nonempty.
  rewrite Hclub, bind_run. unfold Client.stream at 1.
  cbn [feed db reference snapshot_of fst app].
  change (snapshot_of ["clubs"; club_id; "memberships"] <$>
            query_all ["clubs"; club_id; "memberships"] (docs (db w)))
    with (offered_members ["clubs"; club_id] w).
  rewrite bind_run, choose_run by by eapply pick_nonempty.
  rewrite Hpick, bind_run. unfold Main.to_dict. cbn [data snapshot_of].
  unfold mret, M_ret. unfold ret at 1.
  do 3 (rewrite bind_run; cbn [input feed stdin db clock auto_ids issued]).
  rewrite bind_run.
  erewrite (commit_update _ old) by exact Hd.
  reflexivity.
Qed.

(** The four actions at once. *)
Lemma terminal_update_run (k : kind) (w : world) (sels answers rest : list string)
    (id : string) (old : dict) :
  chooses k w sels id old →
  length answers = length (prompts_of k) →
  update_of k (feed w (sels ++ answers ++ rest)) =
  (Ok Main.Updated,
   feed (with_db w (updated (db w) (collection_of k ++ [id]) old
                      (keep_or_replace old (zip (prompts_of k) answers)))) rest).
Proof.
  intros Hch Hlen.
  destruct k; destruct sels as [|s1 [|s2 [|s3 sels]]]; try done;
    destruct answers as [|a1 [|a2 [|a3 [|a4 answers]]]]; try done; simpl in Hch.
  - by apply main_update_university_run.
  - by apply main_update_club_run.
  - by apply main_update_person_run.
  - destruct Hch as [[club Hclub] Hpick]. by eapply main_update_membership_run.
Qed.

Lemma chooses_stored (k : kind) (w : world) (sels : list string)
    (id : string) (old : dict) :
  chooses k w sels id old → docs (db w) !! (collection_of k ++ [id]) = Some old.
Proof.
  intros Hch.
  destruct k; destruct sels as [|s1 [|s2 [|s3 sels]]]; try done; simpl in Hch.
  1-3: destruct (offered_exists _ _ _ (pick_elem_of _ _ _ Hch)) as (i & d & Heq & Hd);
       by injection Heq as <- <-.
  destruct Hch as [_ Hpick].
  destruct (offered_members_exists _ _ _ (pick_elem_of _ _ _ Hpick))
    as (i & d & Heq & Hd).
  by injection Heq as <- <-.
Qed.

(** *** What the written fields are *)


Lemma NoDup_prompts_of (k : kind) : NoDup (prompts_of k).
Proof. destruct k; apply (bool_decide_unpack _); by vm_compute. Qed.

Lemma fst_keep_or_replace (old : dict) (answers : list (string * string)) :
  ((fun fa => (fa.1, Main.or_value (Py.strip fa.2) (dict_get old fa.1))) <$> answers).*1
  = answers.*1.
Proof. rewrite <- list_fmap_compose. by apply list_fmap_ext. Qed.

Lemma lookup_keep_or_replace (old : dict) (answers : list (string * string))
    (f a : string) :
  NoDup answers.*1 → (f, a) ∈ answers →
  keep_or_replace old answers !! f =
    Some (Main.or_value (Py.strip a) (dict_get old f)).
Proof.
  intros Hnd Hin. unfold keep_or_replace.
  apply elem_of_list_to_map; [by rewrite fst_keep_or_replace|].
  apply list_elem_of_fmap. by exists (f, a).
Qed.

Lemma lookup_keep_or_replace_None (old : dict) (answers : list (string * string))
    (g : string) :
  g ∉ answers.*1 → keep_or_replace old answers !! g = None.
Proof.
  intros Hg. unfold keep_or_replace.
  apply not_elem_of_list_to_map_1. by rewrite fst_keep_or_replace.
Qed.

Lemma elem_of_zip_lookup (ps answers : list string) (i : nat) (f a : string) :
  ps !! i = Some f → answers !! i = Some a → (f, a) ∈ zip ps answers.
Proof.
  intros Hf Ha. apply list_elem_of_lookup. exists i.
  apply lookup_zip_with_Some. by exists f, a.
Qed.

(** A prompted field: a blank answer leaves the stored value, any other
    answer is stored stripped. *)
Lemma merged_prompted (k : kind) (old : dict) (answers : list string)
    (i : nat) (f a : string) :
  length answers = length (prompts_of k) →
  prompts_of k !! i = Some f → answers !! i = Some a →
  (keep_or_replace old (zip (prompts_of k) answers) ∪ old) !! f =
    Some (Main.or_value (Py.strip a) (dict_get old f)).
Proof.
  intros Hlen Hf Ha. apply lookup_union_Some_l, lookup_keep_or_replace.
  - rewrite fst_zip by lia. apply NoDup_prompts_of.
  - by eapply elem_of_zip_lookup.
Qed.

(** A field that is not prompted for is not written. *)
Lemma merged_other (k : kind) (old : dict) (answers : list string) (g : string) :
  length answers = length (prompts_of k) →
  g ∉ prompts_of k →
  (keep_or_replace old (zip (prompts_of k) answers) ∪ old) !! g = old !! g.
Proof.
  intros Hlen Hg. apply lookup_union_r, lookup_keep_or_replace_None.
  by rewrite fst_zip by lia.
Qed.

Lemma updated_lookup (w : world) (p : path) (old fields : dict) (rest : list string) :
  docs (db (feed (with_db w (updated (db w) p old fields)) rest)) !! p
  = Some (fields ∪ old).
Proof. apply lookup_insert_eq. Qed.





(** C9.  A terminal update of a chosen document, given one answer per
    prompt, never takes a value away: a field that held a value other
    than [None] holds one afterwards, and it holds the empty string only
    if it did before. *)
Theorem terminal_update_never_clears
    (k : kind) (w : world) (sels answers rest : list string)
    (id : string) (old : dict) (f : string) (v : value) :
  chooses k w sels id old →
  length answers = length (prompts_of k) →
  old !! f = Some v →
  v ≠ VNone →
  let p := collection_of k ++ [id] in
  let out := update_of k (feed w (sels ++ answers ++ rest)) in
  docs (db w) !! p = Some old
  ∧ ∃ new v',
      docs (db out.2) !! p = Some new
      ∧ new !! f = Some v'
      ∧ v' ≠ VNone
      ∧ (v' = VStr EmptyString → v = VStr EmptyString).
Proof.
  intros Hch Hlen Hv Hvn p out. unfold out.
  rewrite (terminal_update_run k w sels answers rest id old Hch Hlen). cbn [snd].
  split; [by eapply chooses_stored|].
  eexists. destruct (decide (f ∈ prompts_of k)) as [Hin|Hin].
  - apply list_elem_of_lookup in Hin as [i Hf].
    destruct (lookup_lt_is_Some_2 answers i) as [a Ha].
    { rewrite Hlen. by eapply lookup_lt_Some. }
    eexists. split; [apply updated_lookup|].
    split; [by eapply merged_prompted|].
    unfold Main.or_value, dict_get. rewrite Hv. simpl.
    destruct (Py.truthy (Py.strip a)) eqn:E; [|done].
    split; [done|]. intros [= Hs]. by rewrite Hs in E.
  - exists v. split; [apply updated_lookup|].
    split; [by rewrite merged_other|done].
Qed.

Lemma terminal_update_never_clears_witness :
  chooses People sample_world ["1"] "p1" sample_person
  ∧ sample_person !! "email" = Some (VStr "ada@uta.edu")
  ∧ (docs (db (Main.update_person (feed sample_world ["1"; " "; "   "; " "])).2)
       !! ["people"; "p1"]) ≫= (fun d => d !! "email")
    = Some (VStr "ada@uta.edu").
Proof.
  assert (chooses People sample_world ["1"] "p1" sample_person) as Hch
    by (vm_compute; reflexivity).
  assert (sample_person !! "email" = Some (VStr "ada@uta.edu")) as Hv
    by (vm_compute; reflexivity).
  split; [exact Hch|]. split; [exact Hv|].
  destruct (terminal_update_never_clears People sample_world ["1"]
              [" "; "   "; " "] [] "p1" sample_person "email" _
              Hch eq_refl Hv ltac:(discriminate))
    as (_ & new & v' & Hnew & Hf & _).
  vm_compute. reflexivity.
Defined.

(** ** Updates leave [createdAt] and the ids alone *)

Lemma createdAt_kept_refl (w : world) : createdAt_kept w w.
Proof. split; [done|]. intros p d d' H1 H2. congruence. Qed.

Lemma createdAt_kept_trans (w1 w2 w3 : world) :
  createdAt_kept w1 w2 → createdAt_kept w2 w3 → createdAt_kept w1 w3.
Proof.
  intros [Hd1 Hc1] [Hd2 Hc2]. split; [congruence|].
  intros p d d'' H1 H3.
  assert (is_Some (docs (db w2) !! p)) as [d' H2].
  { apply elem_of_dom. rewrite Hd1. apply elem_of_dom. by eexists. }
  rewrite (Hc2 p d' d'' H2 H3). by apply (Hc1 p).
Qed.

Lemma createdAt_kept_same_db (w w' : world) : db w' = db w → createdAt_kept w w'.
Proof.
  intros Hdb. split; [by rewrite Hdb|].
  intros p d d'. rewrite Hdb. congruence.
Qed.

Lemma stable_ret {A} (a : A) : stable (ret a).
Proof. intros w. apply createdAt_kept_refl. Qed.

Lemma stable_raise {A} (e : exn) : stable (@raise A e).
Proof. intros w. apply createdAt_kept_refl. Qed.

Lemma stable_bind {A B} (m : M A) (k : A → M B) :
  stable m → (∀ a, stable (k a)) → stable (x ← m; k x).
Proof.
  intros Hm Hk w. rewrite bind_run.
  specialize (Hm w). destruct (m w) as [[a|e] w']; simpl in *; [|done].
  eapply createdAt_kept_trans; [exact Hm|apply Hk].
Qed.

Lemma stable_reads {A} (m : M A) : (∀ w, db (m w).2 = db w) → stable m.
Proof. intros H w. by apply createdAt_kept_same_db. Qed.

Lemma stable_get (p : path) : stable (Client.get p).
Proof. by apply stable_reads. Qed.

Lemma stable_stream (coll : path) : stable (Client.stream coll).
Proof. by apply stable_reads. Qed.

Lemma stable_order_by_stream (coll : path) (field : string) :
  stable (Client.order_by_stream coll field).
Proof. by apply stable_reads. Qed.

Lemma stable_document (coll : path) : stable (Client.document coll).
Proof. by apply stable_reads. Qed.

Lemma stable_document_of (coll : path) (v : value) : stable (Client.document_of coll v).
Proof.
  apply stable_reads. intros w. destruct v; simpl; try done. by case_match.
Qed.

Lemma stable_input : stable input.
Proof. apply stable_reads. intros w. unfold input. by destruct (stdin w). Qed.

Lemma stable_subscript (d : dict) (k : string) : stable (subscript d k).
Proof. apply stable_reads. intros w. unfold subscript. by destruct (d !! k). Qed.

Lemma stable_form_get (r : App.request) (k : string) : stable (App.form_get r k).
Proof. apply stable_reads. intros w. unfold App.form_get. by destruct (App.form r !! k). Qed.

Lemma stable_doc_to_dict_with_id (doc : snapshot) : stable (App.doc_to_dict_with_id doc).
Proof.
  apply stable_reads. intros w. unfold App.doc_to_dict_with_id. by destruct (data doc).
Qed.

Lemma stable_to_dict (snap : snapshot) : stable (Main.to_dict snap).
Proof. apply stable_reads. intros w. unfold Main.to_dict. by destruct (data snap). Qed.

Lemma stable_choose (items : list snapshot) : stable (Main._choose items).
Proof.
  apply stable_reads. intros w. unfold Main._choose.
  destruct items; [done|]. rewrite bind_run. unfold input.
  destruct (stdin w); [done|]. by repeat case_match.
Qed.

(** An [update] that does not name [createdAt] keeps it; from a missing
    document it raises and writes nothing. *)
Lemma stable_update (p : path) (fields : dict) :
  fields !! "createdAt" = None → stable (Client.update p fields).
Proof.
  intros Hf w. unfold Client.update, Client.commit, commit_to. simpl.
  destruct (docs (db w) !! p) as [old|] eqn:Hold; simpl;
    [|apply createdAt_kept_refl].
  split; simpl.
  - rewrite dom_insert_L. apply subseteq_union_1_L, singleton_subseteq_l.
    by eapply elem_of_dom_2.
  - intros q d d' Hd. destruct (decide (q = p)) as [->|Hne].
    + rewrite lookup_insert_eq. intros [= <-].
      rewrite lookup_union_r by done. congruence.
    + rewrite lookup_insert_ne by done. congruence.
Qed.

(** Walking through a handler: every step is a read, a branch, or an
    update that does not name [createdAt]. *)
Ltac stable_walk :=
  repeat first
    [ apply stable_ret
    | apply stable_raise
    | apply stable_get
    | apply stable_stream
    | apply stable_order_by_stream
    | apply stable_input
    | apply stable_form_get
    | apply stable_to_dict
    | apply stable_choose
    | apply stable_doc_to_dict_with_id
    | apply stable_subscript
    | apply stable_document_of
    | apply stable_update; reflexivity
    | apply stable_bind; [|intros ?]
    | progress cbv zeta
    | match goal with |- stable (if ?b then _ else _) => destruct b end
    | match goal with |- stable (match ?x with _ => _ end) => destruct x end ].

Lemma stable_edit_university id r : stable (App.edit_university id r).
Proof. unfold App.edit_university. stable_walk. Qed.

Lemma stable_edit_club id r : stable (App.edit_club id r).
Proof. unfold App.edit_club. stable_walk. Qed.

Lemma stable_edit_person id r : stable (App.edit_person id r).
Proof. unfold App.edit_person. stable_walk. Qed.

Lemma stable_edit_member c m r : stable (App.edit_member c m r).
Proof. unfold App.edit_member. stable_walk. Qed.

Lemma stable_update_university : stable Main.update_university.
Proof. unfold Main.update_university. stable_walk. Qed.

Lemma stable_update_club : stable Main.update_club.
Proof. unfold Main.update_club. stable_walk. Qed.

Lemma stable_update_person : stable Main.update_person.
Proof. unfold Main.update_person. stable_walk. Qed.

Lemma stable_update_membership : stable Main.update_membership.
Proof. unfold Main.update_membership. stable_walk. Qed.

(** C6.  Whatever the inputs and however it ends, an update operation of
    either front-end leaves the store with the same document paths, hence
    the same ids, and leaves the [createdAt] field of every document as it
    was. *)
Theorem update_keeps_createdAt_and_ids (op : update_op) (w : world) :
  dom (docs (db (after_update op w))) = dom (docs (db w))
  ∧ ∀ p d d',
      docs (db w) !! p = Some d →
      docs (db (after_update op w)) !! p = Some d' →
      d' !! "createdAt" = d !! "createdAt".
Proof.
  change (createdAt_kept w (after_update op w)).
  destruct op; simpl.
  - apply stable_edit_university.
  - apply stable_edit_club.
  - apply stable_edit_person.
  - apply stable_edit_member.
  - apply stable_update_university.
  - apply stable_update_club.
  - apply stable_update_person.
  - apply stable_update_membership.
Qed.

Lemma update_keeps_createdAt_and_ids_witness :
  docs (db sample_world) !! ["universities"; "u1"] = Some sample_university
  ∧ ∀ d',
      docs (db (after_update
                  (Edit_university "u1"
                     (App.Request App.POST
                        (list_to_map [("name", "UT Arlington"); ("domain", " ")])))
                  sample_world)) !! ["universities"; "u1"] = Some d' →
      d' !! "createdAt" = Some (VTime 1).
Proof.
  assert (docs (db sample_world) !! ["universities"; "u1"] = Some sample_university)
    as Hd by (vm_compute; reflexivity).
  split; [exact Hd|]. intros d' Hd'.
  destruct (update_keeps_createdAt_and_ids
              (Edit_university "u1"
                 (App.Request App.POST
                    (list_to_map [("name", "UT Arlington"); ("domain", " ")])))
              sample_world) as [_ Hkept].
  by rewrite (Hkept _ _ _ Hd Hd').
Defined.

(** ** Listings *)

Lemma order_by_stream_run (coll : path) (field : string) (w : world) :
  Client.order_by_stream coll field w =
  (Ok (snapshot_of coll <$> query_order_by coll field (docs (db w))), w).
Proof. reflexivity. Qed.

Lemma stream_run (coll : path) (w : world) :
  Client.stream coll w = (Ok (snapshot_of coll <$> query_all coll (docs (db w))), w).
Proof. reflexivity. Qed.

Lemma app_universities_run (w : world) :
  App.universities w =
  (Ok {| App.flashed := None;
         App.body := App.Render "universities.html"
           [("universities",
             with_id <$> query_order_by ["universities"] "name" (docs (db w)))] |}, w).
Proof.
  unfold App.universities. rewrite bind_run, order_by_stream_run.
  by rewrite bind_run, mapM_doc_to_dict_with_id.
Qed.

Lemma app_people_run (w : world) :
  App.people w =
  (Ok {| App.flashed := None;
         App.body := App.Render "people.html"
           [("people", with_id <$> query_order_by ["people"] "name" (docs (db w)))] |}, w).
Proof.
  unfold App.people. rewrite bind_run, order_by_stream_run.
  by rewrite bind_run, mapM_doc_to_dict_with_id.
Qed.

Lemma main_list_memberships_run (w : world) (sel : string) (rest : list string)
    (club : snapshot) :
  pick (offered "clubs" w) sel = Some club →
  Main.list_memberships (feed w (sel :: rest)) =
  (Ok (Some (offered_members (reference club) w)), feed w rest).
Proof.
  intros Hpick. unfold Main.list_memberships.
  rewrite bind_run, order_by_stream_run. cbn [feed db]. fold (offered "clubs" w).
  rewrite bind_run, choose_run by by eapply pick_nonempty.
  by rewrite Hpick.
Qed.

(** C8, as the code has it.  A query over a collection with no documents
    returns the empty list.  The listing by name, which the university,
    club and people listings of both front-ends show, holds exactly the
    documents of the collection that have a [name], each once, in
    ascending order of that name.  The listing of a club's memberships
    holds every membership of the club, each once, in ascending order of
    the document ids. *)
Theorem listings_sorted (w : world) :
  let ds := docs (db w) in
  (∀ coll field, children coll ds = [] →
     Client.order_by_stream coll field w = (Ok [], w)
     ∧ Client.stream coll w = (Ok [], w))
  ∧ (∀ coll, let l := query_order_by coll "name" ds in
       Client.order_by_stream coll "name" w = (Ok (snapshot_of coll <$> l), w)
       ∧ (∀ id d, (id, d) ∈ l ↔ ds !! (coll ++ [id]) = Some d ∧ is_Some (d !! "name"))
       ∧ NoDup l.*1
       ∧ (∀ i j a b, (i < j)%nat → l !! i = Some a → l !! j = Some b →
            value_le (dict_get a.2 "name") (dict_get b.2 "name")))
  ∧ (∀ coll, let l := query_all coll ds in
       Client.stream coll w = (Ok (snapshot_of coll <$> l), w)
       ∧ (∀ id d, (id, d) ∈ l ↔ ds !! (coll ++ [id]) = Some d)
       ∧ NoDup l.*1
       ∧ (∀ i j a b, (i < j)%nat → l !! i = Some a → l !! j = Some b →
            String.le a.1 b.1))
  ∧ (App.universities w =
       (Ok {| App.flashed := None;
              App.body := App.Render "universities.html"
                [("universities", with_id <$> query_order_by ["universities"] "name" ds)] |},
        w)
     ∧ App.people w =
       (Ok {| App.flashed := None;
              App.body := App.Render "people.html"
                [("people", with_id <$> query_order_by ["people"] "name" ds)] |}, w)
     ∧ Main.list_universities w = Client.order_by_stream ["universities"] "name" w
     ∧ Main.list_clubs w = Client.order_by_stream ["clubs"] "name" w
     ∧ Main.list_people w = Client.order_by_stream ["people"] "name" w
     ∧ (∀ sel rest club, pick (offered "clubs" w) sel = Some club →
          Main.list_memberships (feed w (sel :: rest)) =
            (Ok (Some (snapshot_of (reference club ++ ["memberships"]) <$>
                         query_all (reference club ++ ["memberships"]) ds)),
             feed w rest))).
Proof.
  intros ds. split; [|split; [|split]].
  - intros coll field Hnil. rewrite order_by_stream_run, stream_run. fold ds.
    by rewrite children_nil_query_order_by, children_nil_query_all.
  - intros coll l. split; [apply order_by_stream_run|].
    split; [apply elem_of_query_order_by|].
    split; [apply NoDup_query_order_by_ids|].
    intros i j a b Hij Ha Hb. apply field_le_value.
    eapply (StronglySorted_lookup _ l i j); eauto. apply query_order_by_sorted.
  - intros coll l. split; [apply stream_run|].
    split; [apply elem_of_query_all|].
    split; [apply NoDup_query_all_ids|].
    intros i j a b Hij Ha Hb.
    eapply (StronglySorted_lookup id_le l i j); eauto. apply query_all_sorted.
  - split; [apply app_universities_run|]. split; [apply app_people_run|].
    do 3 (split; [reflexivity|]).
    intros sel rest club Hpick. by apply main_list_memberships_run.
Qed.

Lemma listings_sorted_witness :
  (fun s => snap_id s) <$>
    match (Main.list_universities sample_world).1 with Ok l => l | Raise _ => [] end
  = ["u1"]
  ∧ ∀ i j a b, (i < j)%nat →
      query_all ["clubs"; "c1"; "memberships"] sample_docs !! i = Some a →
      query_all ["clubs"; "c1"; "memberships"] sample_docs !! j = Some b →
      String.le a.1 b.1.
Proof.
  destruct (listings_sorted sample_world) as (_ & Hname & Hid & _ & _ & Hlist & _).
  split.
  - rewrite Hlist. destruct (Hname ["universities"]) as [-> _].
    vm_compute. reflexivity.
  - destruct (Hid ["clubs"; "c1"; "memberships"]) as (_ & _ & _ & Hsorted).
    exact Hsorted.
Defined.

(** After the two additions the member listing shows the membership
    created last in the first row: the rows follow the ids. *)
Lemma memberships_listed_by_id :
  (fun row => (row !! "id", row !! "createdAt")) <$>
    context_of (App.club_members "c1" two_more_members).1 "members"
  = [(Some (VStr "k2"), Some (VTime 200)); (Some (VStr "m1"), Some (VTime 4));
     (Some (VStr "m2"), Some (VTime 5)); (Some (VStr "q7"), Some (VTime 100))]
  ∧ ¬ (200 ≤ 4)%Z.
Proof. split; [vm_compute; reflexivity|lia]. Qed.
